(** * YWAR tracker: configuration merging, theme resolution and container depth

    A shallow embedding of the logic of
    - [config/config.py]   ([_deep_merge_dicts], [load_config]),
    - [ui/theme.py]        ([_get_colors_from_theme]),
    - [ui/containers/base.py] ([ContainerType], [YWARContainer.__init__]),
    followed by the properties the specification states about them.

    Python values are modelled by the inductive type [pyval]; a [dict] is a
    [gmap] from names to values (the configuration documents use string keys
    throughout, and none of the properties depends on insertion order);
    exceptions and non-termination are explicit in the [outcome] type. *)

From Stdlib Require Import ZArith String Ascii.
From Stdlib Require Import Floats.SpecFloat.
From stdpp Require Import gmap strings list fin_maps.

#[local] Set Warnings "-register-all".
#[local] Open Scope string_scope.
#[local] Open Scope list_scope.

(* ===================================================================== *)
(** * Python values, exceptions and outcomes *)
(* ===================================================================== *)

Module Py.

(** The values [yaml.safe_load] produces for the configuration documents:
    scalars, sequences and string-keyed mappings. *)
Inductive pyval :=
  | PNone
  | PBool (b : bool)
  | PInt (z : Z)
  | PFloat (f : spec_float)
  | PStr (s : string)
  | PList (l : list pyval)
  | PDict (d : gmap string pyval).

(** The number of nodes of a value, the measure for induction on nested
    values. *)
Fixpoint pyval_size (v : pyval) : nat :=
  match v with
  | PDict d => S (map_fold (fun _ x n => pyval_size x + n) 0 d)
  | PList l => S (foldr (fun x n => pyval_size x + n) 0 l)
  | _ => 1
  end.

(** The exception classes the modelled code can raise. *)
Inductive exn :=
  | FileNotFoundError (path : string)
  | YAMLError (msg : string)
  | AttributeError (attr : string)
  | KeyError (key : pyval)
  | TypeError (msg : string)
  | IndexError (msg : string).

(** The Python name of an exception's class. *)
Definition exc_name (e : exn) : string :=
  match e with
  | FileNotFoundError _ => "FileNotFoundError"
  | YAMLError _ => "YAMLError"
  | AttributeError _ => "AttributeError"
  | KeyError _ => "KeyError"
  | TypeError _ => "TypeError"
  | IndexError _ => "IndexError"
  end.

(** What a call does: return a value, raise, or never return. *)
Inductive outcome (A : Type) :=
  | Returns (a : A)
  | Raises (e : exn)
  | Diverges.
Arguments Returns {A} a.
Arguments Raises {A} e.
Arguments Diverges {A}.

#[global] Instance outcome_ret : MRet outcome := fun A a => Returns a.
#[global] Instance outcome_bind : MBind outcome := fun A B k m =>
  match m with
  | Returns a => k a
  | Raises e => Raises e
  | Diverges => Diverges
  end.

(** [isinstance(v, dict)] *)
Definition is_dict (v : pyval) : bool :=
  match v with PDict _ => true | _ => false end.

(** Truth value of an object, as used by [or], [and], [if]. *)
Definition py_bool (v : pyval) : bool :=
  match v with
  | PNone => false
  | PBool b => b
  | PInt z => negb (z =? 0)%Z
  | PFloat (S754_zero _) => false
  | PFloat _ => true
  | PStr s => negb (String.length s =? 0)%nat
  | PList l => negb (length l =? 0)%nat
  | PDict d => negb (size d =? 0)%nat
  end.

(** [a or b] *)
Definition py_or (a b : pyval) : pyval := if py_bool a then a else b.

(** Whether a value can be used as a dictionary key. *)
Definition hashable (v : pyval) : bool :=
  match v with PList _ | PDict _ => false | _ => true end.

(** Indexing a sequence of length [n] with the integer [i]: negative indices
    count from the end. *)
Definition seq_index (n : nat) (i : Z) : option nat :=
  if (0 <=? i)%Z && (i <? Z.of_nat n)%Z then Some (Z.to_nat i)
  else if (- Z.of_nat n <=? i)%Z && (i <? 0)%Z then Some (Z.to_nat (Z.of_nat n + i))
  else None.

(** An object usable as an index: [int], or [bool] as its subclass. *)
Definition as_index (key : pyval) : option Z :=
  match key with
  | PInt i => Some i
  | PBool b => Some (if b then 1 else 0)%Z
  | _ => None
  end.

(** [obj[key]] *)
Definition getitem (obj key : pyval) : outcome pyval :=
  match obj with
  | PDict d =>
      if hashable key then
        match key with
        | PStr k =>
            match d !! k with
            | Some v => Returns v
            | None => Raises (KeyError key)
            end
        | _ => Raises (KeyError key)
        end
      else Raises (TypeError "unhashable type")
  | PList l =>
      match as_index key with
      | Some i =>
          match seq_index (length l) i ≫= (l !!.) with
          | Some v => Returns v
          | None => Raises (IndexError "list index out of range")
          end
      | None => Raises (TypeError "list indices must be integers or slices")
      end
  | PStr s =>
      match as_index key with
      | Some i =>
          match seq_index (String.length s) i ≫= (fun n => String.get n s) with
          | Some c => Returns (PStr (String c EmptyString))
          | None => Raises (IndexError "string index out of range")
          end
      | None => Raises (TypeError "string indices must be integers")
      end
  | _ => Raises (TypeError "object is not subscriptable")
  end.

(** [obj.get(key, default)]: only a [dict] has the method. *)
Definition get (obj key dflt : pyval) : outcome pyval :=
  match obj with
  | PDict d =>
      if hashable key then
        match key with
        | PStr k => Returns (default dflt (d !! k))
        | _ => Returns dflt
        end
      else Raises (TypeError "unhashable type")
  | _ => Raises (AttributeError "get")
  end.

End Py.
Import Py.

(* ===================================================================== *)
(** * config/config.py *)
(* ===================================================================== *)

Module Config.

(** The value the loop body of [_deep_merge_dicts] assigns to [result[key]]:
    the recursive merge when [key in result] and both [result[key]] and
    [value] are dictionaries, and [value] itself otherwise. [existing] is
    [result.get(key)], with [None] for an absent key. The recursive call of
    [_deep_merge_dicts] appears unfolded, as the recursion goes through the
    values stored in [override]. *)
Fixpoint merged_value (value : pyval) (existing : option pyval) {struct value} : pyval :=
  match value, existing with
  | PDict vd, Some (PDict rd) =>
      PDict (map_fold (fun key v result => <[key := merged_value v (result !! key)]> result)
                      rd vd)
  | _, _ => value
  end.

(** [_deep_merge_dicts(base, override)]: [result] starts as a copy of [base]
    and every item of [override] is written into it. *)
Definition _deep_merge_dicts (base override : gmap string pyval) : gmap string pyval :=
  map_fold (fun key value result => <[key := merged_value value (result !! key)]> result)
           base override.

(** A call of [_deep_merge_dicts] on arbitrary objects, as [load_config]
    makes it on whatever the two documents parsed to. Among the values of
    [pyval] (scalars, lists and mappings keyed by strings), [base.copy()]
    exists for a [dict] and a [list] only; [override.items()] for a [dict]
    only; writing [result[key]] with a string key into a list is a
    [TypeError]. *)
Definition call_deep_merge_dicts (base override : pyval) : outcome pyval :=
  match base with
  | PDict b =>
      match override with
      | PDict o => Returns (PDict (_deep_merge_dicts b o))
      | _ => Raises (AttributeError "items")
      end
  | PList l =>
      match override with
      | PDict o =>
          if (size o =? 0)%nat then Returns (PList l)
          else Raises (TypeError "list indices must be integers or slices")
      | _ => Raises (AttributeError "items")
      end
  | _ => Raises (AttributeError "copy")
  end.

Definition DEFAULT_CONFIG_PATH : string := "default.yaml".
Definition USER_CONFIG_PATH : string := "user.yaml".

(** The two documents of the configuration directory: [None] when the file
    does not exist, its text otherwise. *)
Record config_dir := {
  default_yaml : option string;
  user_yaml : option string
}.

(** [open(path, 'r', encoding = 'utf-8')] *)
Definition open_file (path : string) (file : option string) : outcome string :=
  match file with
  | Some text => Returns text
  | None => Raises (FileNotFoundError path)
  end.

Section Loader.

(** [yaml.safe_load], the parser of the YAML library: it returns the parsed
    object or raises. *)
Variable yaml_safe_load : string -> outcome pyval.

Definition load_config (dir : config_dir) : outcome pyval :=
  f ← open_file DEFAULT_CONFIG_PATH (default_yaml dir);
  default_config ← yaml_safe_load f;
  user_config ←
    match user_yaml dir with
    | Some f => v ← yaml_safe_load f; mret (py_or v (PDict ∅))
    | None => mret (PDict ∅)
    end;
  call_deep_merge_dicts default_config user_config.

End Loader.

(** A parser for the worked examples: it knows three documents and rejects
    every other text. *)
Definition sample_safe_load (text : string) : outcome pyval :=
  if String.eqb text "" then Returns PNone
  else if String.eqb text "ui: {theme: dark}"
       then Returns (PDict {[ "ui" := PDict {[ "theme" := PStr "dark" ]} ]})
  else if String.eqb text "ui: {font: {size: 12}}"
       then Returns (PDict {[ "ui" := PDict {[ "font" := PDict {[ "size" := PInt 12 ]} ]} ]})
  else Raises (YAMLError "could not parse").

(** The trees of the worked examples. *)
Definition sample_base : gmap string pyval :=
  {[ "app" := PDict {[ "title" := PStr "YWAR" ]};
     "ui" := PDict {[ "theme" := PStr "light"; "font" := PDict {[ "size" := PInt 10 ]} ]};
     "window" := PDict {[ "width" := PInt 800 ]} ]}.
Definition sample_override : gmap string pyval :=
  {[ "ui" := PDict {[ "font" := PDict {[ "size" := PInt 12 ]} ]};
     "window" := PInt 5;
     "timer" := PDict {[ "precision_ms" := PInt 10 ]} ]}.

End Config.
Import Config.

(* ===================================================================== *)
(** * ui/theme.py *)
(* ===================================================================== *)

Module Theme.

(** [_get_colors_from_theme(config)]. The dictionary display evaluates its
    six values in the order they are written. *)
Definition _get_colors_from_theme (config : pyval) : outcome pyval :=
  ui ← getitem config (PStr "ui");
  theme_name ← get ui (PStr "theme") (PStr "light");
  themes ← getitem config (PStr "themes");
  theme_config ← getitem themes theme_name;
  bg ← getitem theme_config (PStr "background");
  fg ← getitem theme_config (PStr "foreground");
  panel_bg ← getitem theme_config (PStr "panel_bg");
  accent ← getitem theme_config (PStr "accent");
  highlight ← getitem theme_config (PStr "highlight");
  border ← getitem theme_config (PStr "border");
  mret (PDict (<["bg" := bg]> (<["fg" := fg]> (<["panel_bg" := panel_bg]>
              (<["accent" := accent]> (<["highlight" := highlight]>
              (<["border" := border]> ∅))))))).

(** The six keys read from the palette of the selected theme. *)
Definition palette_keys : list string :=
  ["background"; "foreground"; "panel_bg"; "accent"; "highlight"; "border"].

(** The palettes and configurations of the worked examples. *)
Definition sample_palette : gmap string pyval :=
  {[ "background" := PStr "#ffffff"; "foreground" := PStr "#000000";
     "panel_bg" := PStr "#f0f0f0"; "accent" := PStr "#3366cc";
     "highlight" := PStr "#ffcc00"; "border" := PStr "#cccccc";
     "comment" := PStr "unused" ]}.
Definition sample_ui : gmap string pyval :=
  {[ "font" := PDict {[ "size" := PInt 10 ]} ]}.
Definition sample_themes : gmap string pyval :=
  {[ "light" := PDict sample_palette ]}.
Definition sample_config : gmap string pyval :=
  {[ "ui" := PDict sample_ui; "themes" := PDict sample_themes ]}.
Definition sample_config_dark : gmap string pyval :=
  {[ "ui" := PDict {[ "theme" := PStr "dark" ]}; "themes" := PDict sample_themes ]}.

End Theme.
Import Theme.

(* ===================================================================== *)
(** * ui/containers/base.py *)
(* ===================================================================== *)

Module Containers.

Inductive ContainerType := BASE | SECTION | LOCATION | TASK.

#[global] Instance ContainerType_eq_dec : EqDecision ContainerType.
Proof. solve_decision. Defined.

(** The value of each member of the enumeration. *)
Definition ContainerType_value (t : ContainerType) : Z :=
  match t with BASE => 0 | SECTION => 1 | LOCATION => 2 | TASK => 3 end.

(** The class attributes a container class defines. *)
Record container_class := {
  CONTAINER_TYPE : ContainerType;
  BASE_COLOR : string;
  DEPTH_STYLES : gmap nat pyval
}.

(** The attributes of [YWARContainer] itself. *)
Definition YWARContainer : container_class :=
  {| CONTAINER_TYPE := BASE; BASE_COLOR := "#000000"; DEPTH_STYLES := ∅ |}.

(** A container object. [depth] and [style_tokens] do not exist until
    [__init__] assigns them. *)
Record container := {
  class_of : container_class;
  parent_container : option nat;
  title : string;
  children_containers : list nat;
  depth : option nat;
  style_tokens : option pyval
}.

(** The container objects alive, each named by its index. *)
Abbreviation store := (list container).

(** The [parent] argument of [__init__]: a widget of the toolkit that is no
    container, or a reference to a container. *)
Inductive tk_parent :=
  | Widget
  | Ref (p : nat).

Definition set_depth (d : nat) (c : container) : container :=
  {| class_of := class_of c; parent_container := parent_container c; title := title c;
     children_containers := children_containers c; depth := Some d;
     style_tokens := style_tokens c |}.

Definition set_style_tokens (s : pyval) (c : container) : container :=
  {| class_of := class_of c; parent_container := parent_container c; title := title c;
     children_containers := children_containers c; depth := depth c;
     style_tokens := Some s |}.

Definition append_child (child : nat) (c : container) : container :=
  {| class_of := class_of c; parent_container := parent_container c; title := title c;
     children_containers := (children_containers c ++ [child])%list; depth := depth c;
     style_tokens := style_tokens c |}.

(** Modelled from the spec: the loop of [_compute_relative_depth], the upward
    walk along [parent_container] that counts the containers of the given
    kind. [steps] bounds the number of containers visited; without a result
    within the bound the walk has none. *)
Fixpoint walk_up (steps : nat) (σ : store) (kind : ContainerType)
    (node : option nat) (count : nat) : option nat :=
  match node with
  | None => Some count
  | Some p =>
      match steps with
      | 0 => None
      | S steps' =>
          c ← σ !! p;
          walk_up steps' σ kind (parent_container c)
                  (if decide (CONTAINER_TYPE (class_of c) = kind) then S count else count)
      end
  end.

(** Modelled from the spec: the method [_compute_relative_depth], which
    [__init__] calls and whose body the source at hand does not have. It walks the
    [parent_container] chain upward from the container, counts the ancestors
    whose kind equals the container's kind, and stops at the root. A chain
    that visits every container of the store without reaching a root is a
    cycle, on which the walk does not return. *)
Definition _compute_relative_depth (σ : store) (self : nat) : outcome nat :=
  match σ !! self with
  | None => Raises (AttributeError "parent_container")
  | Some c =>
      match walk_up (length σ) σ (CONTAINER_TYPE (class_of c)) (parent_container c) 0 with
      | Some d => Returns d
      | None => Diverges
      end
  end.

(** Modelled from the spec: the method [_resolve_style_tokens], which
    [__init__] calls and whose body the source at hand does not have. It looks the
    container's depth up in the depth-to-style table of its kind and uses the
    entry when there is one; without an entry it falls back to the base style
    of the kind, which the class gives as [BASE_COLOR]. *)
Definition _resolve_style_tokens (σ : store) (self : nat) : outcome pyval :=
  match σ !! self with
  | None => Raises (AttributeError "depth")
  | Some c =>
      match depth c with
      | None => Raises (AttributeError "depth")
      | Some d =>
          Returns (default (PStr (BASE_COLOR (class_of c))) (DEPTH_STYLES (class_of c) !! d))
      end
  end.

(** Modelled from the spec: the method [_build_structure], which [__init__]
    calls and whose body the source at hand does not have. The widgets it creates
    are outside this model; of the effects the spec gives to construction,
    the one that no line of [__init__] performs is appending the new
    container to the [children_containers] of its parent container, and it
    is placed here. *)
Definition _build_structure (σ : store) (self : nat) : outcome store :=
  match σ !! self with
  | None => Raises (AttributeError "parent_container")
  | Some c =>
      match parent_container c with
      | Some p => Returns (alter (append_child self) p σ)
      | None => Returns σ
      end
  end.

(** [YWARContainer.__init__(self, parent, title = "")] for an object of class
    [klass]. The new object is allocated at the end of the store. Creating the
    frame widget ([super().__init__]) is left to the toolkit. *)
Definition __init__ (klass : container_class) (parent : tk_parent) (title : string)
    (σ : store) : outcome (nat * store) :=
  let self := length σ in
  (* self.parent_container = parent if isinstance(parent, YWARContainer) else None *)
  let parent_container :=
    match parent with
    | Ref p => if σ !! p is Some _ then Some p else None
    | Widget => None
    end in
  (* self.title = title; self.children_containers = [] *)
  let σ1 := (σ ++ [ {| class_of := klass; parent_container := parent_container;
                       title := title; children_containers := [];
                       depth := None; style_tokens := None |} ])%list in
  (* self.depth = self._compute_relative_depth() *)
  d ← _compute_relative_depth σ1 self;
  let σ2 := alter (set_depth d) self σ1 in
  (* self.style_tokens = self._resolve_style_tokens() *)
  s ← _resolve_style_tokens σ2 self;
  let σ3 := alter (set_style_tokens s) self σ2 in
  (* self._build_structure() *)
  σ4 ← _build_structure σ3 self;
  mret (self, σ4).

(** The list of ancestors of a container, nearest first, when the chain of
    [parent_container] links ends at a root. *)
Inductive ancestors (σ : store) : option nat -> list container -> Prop :=
  | ancestors_root : ancestors σ None []
  | ancestors_step p c rest :
      σ !! p = Some c ->
      ancestors σ (parent_container c) rest ->
      ancestors σ (Some p) (c :: rest).

(** Every container was created after its parent container. *)
Definition hierarchy_ok (σ : store) : Prop :=
  forall i c p, σ !! i = Some c -> parent_container c = Some p -> p < i.

(** The number of containers of a list whose kind is [kind]. *)
Definition count_kind (kind : ContainerType) (cs : list container) : nat :=
  length (filter (fun c => CONTAINER_TYPE (class_of c) = kind) cs).

(** The classes of the worked examples. *)
Definition SectionContainer : container_class :=
  {| CONTAINER_TYPE := SECTION; BASE_COLOR := "#203040"; DEPTH_STYLES := ∅ |}.
Definition TaskContainer : container_class :=
  {| CONTAINER_TYPE := TASK; BASE_COLOR := "#405060";
     DEPTH_STYLES := {[ 0 := PStr "base"; 1 := PStr "deep" ]} |}.

(** A Section holding a Task that holds a Task. *)
Definition section_task_task : outcome (nat * store) :=
  '(section, σ1) ← __init__ SectionContainer Widget "Chapter 1" [];
  '(outer, σ2) ← __init__ TaskContainer (Ref section) "Talk to Whisper" σ1;
  __init__ TaskContainer (Ref outer) "Open the capsule" σ2.

(** Three Tasks nested in one another, below a plain widget. *)
Definition task_task_task : outcome (nat * store) :=
  '(first, σ1) ← __init__ TaskContainer Widget "a" [];
  '(second, σ2) ← __init__ TaskContainer (Ref first) "b" σ1;
  __init__ TaskContainer (Ref second) "c" σ2.

End Containers.
Import Containers.

(* ===================================================================== *)
(** * ui/theme.py: applying the theme *)
(* ===================================================================== *)

Module Styling.

(** A value passed to the toolkit as a widget or style option: an object of
    the configuration, or a tuple of such objects (a font description). *)
Inductive tk_value :=
  | TkObj (v : pyval)
  | TkTuple (items : list pyval).

(** The requests [apply_theme] sends to the toolkit. Re-selecting the current
    theme, [style.theme_use(style.theme_use())], counts as one request. *)
Inductive tk_call :=
  | RootConfigure (options : list (string * tk_value))
  | StyleNew
  | StyleThemeUseCurrent
  | StyleConfigure (style_name : string) (options : list (string * tk_value)).

(** An error of the modelled code, or one the toolkit raises. *)
Inductive ui_exn :=
  | PyError (e : exn)
  | TclError (msg : string).

Inductive ui_outcome (A : Type) :=
  | Done (a : A)
  | Failed (e : ui_exn)
  | Hangs.
Arguments Done {A} a.
Arguments Failed {A} e.
Arguments Hangs {A}.

(** A computation that talks to the toolkit: from the requests made so far
    to the requests made afterwards and the outcome. *)
Definition ui (A : Type) : Type := list tk_call -> list tk_call * ui_outcome A.

Definition ui_ret {A} (a : A) : ui A := fun made => (made, Done a).

Definition ui_bind {A B} (m : ui A) (k : A -> ui B) : ui B := fun made =>
  match m made with
  | (made', Done a) => k a made'
  | (made', Failed e) => (made', Failed e)
  | (made', Hangs) => (made', Hangs)
  end.

(** A step that does not involve the toolkit. *)
Definition py {A} (m : outcome A) : ui A := fun made =>
  (made, match m with
         | Returns a => Done a
         | Raises e => Failed (PyError e)
         | Diverges => Hangs
         end).

Notation "x <~ m ;; k" := (ui_bind m (fun x => k))
  (at level 100, m at next level, right associativity).
Notation "m ;;; k" := (ui_bind m (fun _ => k))
  (at level 100, right associativity).

(** [config['ui']['font'][key]] *)
Definition config_ui_font (config : pyval) (key : string) : outcome pyval :=
  ui ← getitem config (PStr "ui");
  font ← getitem ui (PStr "font");
  getitem font (PStr key).

Section Toolkit.

(** The toolkit: given the requests made so far and a new request, it accepts
    the request or raises a [TclError]. *)
Variable toolkit : list tk_call -> tk_call -> option string.

(** Sending one request. *)
Definition tk (c : tk_call) : ui unit := fun made =>
  (made ++ [c],
   match toolkit made c with
   | None => Done tt
   | Some msg => Failed (TclError msg)
   end).

Definition _configure_frame_style (panel_bg : pyval) : ui unit :=
  tk (StyleConfigure "TFrame" [("background", TkObj panel_bg)]).

(** The [background] option is commented out in the source: [panel_bg] is
    received and not used. *)
Definition _configure_label_style (panel_bg fg font_family font_size : pyval) : ui unit :=
  tk (StyleConfigure "TLabel"
        [("foreground", TkObj fg); ("font", TkTuple [font_family; font_size])]).

Definition _configure_button_style (font_family font_size padding : pyval) : ui unit :=
  tk (StyleConfigure "TButton"
        [("font", TkTuple [font_family; font_size]); ("padding", TkObj padding)]).

Definition _configure_header_style (font_family header_font_size : pyval) : ui unit :=
  tk (StyleConfigure "Header.TLabel" [("font", TkTuple [font_family; header_font_size])]).

Definition _configure_highlight_style (highlight font_family font_size : pyval) : ui unit :=
  tk (StyleConfigure "Highlight.TLabel"
        [("foreground", TkObj highlight);
         ("font", TkTuple [font_family; font_size; PStr "bold"])]).

Definition _configure_timer_style (monospace_font_family timer_font_size : pyval) : ui unit :=
  tk (StyleConfigure "Timer.TLabel"
        [("font", TkTuple [monospace_font_family; timer_font_size; PStr "bold"])]).

(** [apply_theme(root, config)]. Arguments are evaluated left to right
    before each call. *)
Definition apply_theme (config : pyval) : ui pyval :=
  colors <~ py (_get_colors_from_theme config) ;;
  bg <~ py (getitem colors (PStr "bg")) ;;
  tk (RootConfigure [("bg", TkObj bg)]) ;;;
  tk StyleNew ;;;
  tk StyleThemeUseCurrent ;;;
  panel_bg <~ py (getitem colors (PStr "panel_bg")) ;;
  _configure_frame_style panel_bg ;;;
  font_family <~ py (config_ui_font config "family") ;;
  font_size <~ py (config_ui_font config "size") ;;
  fg <~ py (getitem colors (PStr "fg")) ;;
  _configure_label_style panel_bg fg font_family font_size ;;;
  _configure_button_style font_family font_size (PInt 6) ;;;
  header_font_size <~ py (config_ui_font config "header_size") ;;
  _configure_header_style font_family header_font_size ;;;
  highlight <~ py (getitem colors (PStr "highlight")) ;;
  _configure_highlight_style highlight font_family font_size ;;;
  monospace_font_family <~ py (config_ui_font config "monospace_family") ;;
  timer_font_size <~ py (config_ui_font config "timer_size") ;;
  _configure_timer_style monospace_font_family timer_font_size ;;;
  ui_ret colors.

End Toolkit.

(** A computation that keeps the requests made before it and adds only
    requests satisfying [P], however it ends. *)
Definition adds_only (P : tk_call -> Prop) {A} (m : ui A) : Prop :=
  forall made, exists added, fst (m made) = made ++ added /\ Forall P added.

(** The names of the options a request sets. *)
Definition option_names (c : tk_call) : list string :=
  match c with
  | RootConfigure options | StyleConfigure _ options => fst <$> options
  | _ => []
  end.

(** The toolkit of the worked examples, which accepts every request. *)
Definition accepting_toolkit : list tk_call -> tk_call -> option string :=
  fun _ _ => None.

(** A configuration of the worked examples with a complete font table. *)
Definition sample_font : gmap string pyval :=
  {[ "family" := PStr "Segoe UI"; "size" := PInt 10; "header_size" := PInt 14;
     "monospace_family" := PStr "Consolas"; "timer_size" := PInt 24 ]}.
Definition themed_config : gmap string pyval :=
  {[ "ui" := PDict {[ "theme" := PStr "light"; "font" := PDict sample_font ]};
     "themes" := PDict sample_themes ]}.

End Styling.
Import Styling.

(* ===================================================================== *)
(** * Properties of the configuration merge *)
(* ===================================================================== *)

Section MergeFacts.

Implicit Types base override d : gmap string pyval.
Implicit Types v : pyval.

(** The recursive case of [merged_value] is the call of
    [_deep_merge_dicts]. *)
Lemma merged_value_dict rd vd :
  merged_value (PDict vd) (Some (PDict rd)) = PDict (_deep_merge_dicts rd vd).
Proof. reflexivity. Qed.

Lemma merged_value_not_both v existing :
  ~ (is_dict v = true /\ exists rd, existing = Some (PDict rd)) ->
  merged_value v existing = v.
Proof.
  intros Hnot. destruct v; try reflexivity.
  destruct existing as [[]|]; try reflexivity.
  exfalso. apply Hnot. split; [reflexivity | eauto].
Qed.

(** What the merged dictionary holds under each key. *)
Lemma deep_merge_lookup base override k :
  _deep_merge_dicts base override !! k =
  match override !! k with
  | Some vo => Some (merged_value vo (base !! k))
  | None => base !! k
  end.
Proof.
  unfold _deep_merge_dicts. revert k.
  apply (map_fold_weak_ind (fun r m => forall k,
    r !! k = match m !! k with
             | Some vo => Some (merged_value vo (base !! k))
             | None => base !! k
             end)).
  - intros k. by rewrite lookup_empty.
  - intros i x m r Hi IH k. destruct (decide (i = k)) as [->|Hne].
    + rewrite !lookup_insert_eq. by rewrite IH, Hi.
    + rewrite !lookup_insert_ne by done. apply IH.
Qed.

Lemma deep_merge_dom base override :
  dom (_deep_merge_dicts base override) = dom base ∪ dom override.
Proof.
  apply set_eq. intros k.
  rewrite elem_of_union, !elem_of_dom, deep_merge_lookup.
  destruct (override !! k), (base !! k); split; intros H;
    try (destruct H as [H|H]); eauto; by inversion H.
Qed.

Lemma pyval_size_lookup d k v :
  d !! k = Some v -> pyval_size v < pyval_size (PDict d).
Proof.
  intros Hk. simpl.
  rewrite (map_fold_delete_L _ _ k v d); [lia | intros; lia | done].
Qed.

Lemma merged_value_self_bounded n :
  forall v, pyval_size v <= n -> merged_value v (Some v) = v.
Proof.
  induction n as [|n IH]; intros v Hn.
  - destruct v; simpl in Hn; lia.
  - destruct v; try reflexivity.
    rewrite merged_value_dict. f_equal.
    apply map_eq. intros k. rewrite deep_merge_lookup.
    destruct (d !! k) as [x|] eqn:Hk; [|done].
    f_equal. apply IH.
    pose proof (pyval_size_lookup d k x Hk). lia.
Qed.

End MergeFacts.

(** C1: the merged tree has the union of the keys of both trees; a key of
    [base] alone keeps its value, a key of [override] alone is added with its
    value, a key of both holding two mappings holds their recursive merge,
    and for every other key of both the value of [override] replaces the
    value of [base]; for instance merging [{a: 5}] over [{a: {x: 1}}] gives
    [{a: 5}]. *)
Theorem C1_deep_merge_union_override_wins (base override : gmap string pyval) :
  dom (_deep_merge_dicts base override) = dom base ∪ dom override
  /\ (forall k v, base !! k = Some v -> override !! k = None ->
        _deep_merge_dicts base override !! k = Some v)
  /\ (forall k v, base !! k = None -> override !! k = Some v ->
        _deep_merge_dicts base override !! k = Some v)
  /\ (forall k bd od, base !! k = Some (PDict bd) -> override !! k = Some (PDict od) ->
        _deep_merge_dicts base override !! k = Some (PDict (_deep_merge_dicts bd od)))
  /\ (forall k vb vo, base !! k = Some vb -> override !! k = Some vo ->
        is_dict vb && is_dict vo = false ->
        _deep_merge_dicts base override !! k = Some vo)
  /\ _deep_merge_dicts {[ "a" := PDict {[ "x" := PInt 1 ]} ]} {[ "a" := PInt 5 ]}
       = {[ "a" := PInt 5 ]}.
Proof.
  split; [apply deep_merge_dom|].
  repeat split.
  - intros k v Hb Ho. by rewrite deep_merge_lookup, Ho.
  - intros k v Hb Ho. rewrite deep_merge_lookup, Ho, Hb. by destruct v.
  - intros k bd od Hb Ho. by rewrite deep_merge_lookup, Ho, Hb.
  - intros k vb vo Hb Ho Hkind. rewrite deep_merge_lookup, Ho, Hb. f_equal.
    apply merged_value_not_both. intros [Hvo [rd Hrd]].
    injection Hrd as ->. rewrite Hvo in Hkind. discriminate.
Qed.

Lemma C1_witness :
  _deep_merge_dicts sample_base sample_override !! "app"
    = Some (PDict {[ "title" := PStr "YWAR" ]})
  /\ _deep_merge_dicts sample_base sample_override !! "timer"
    = Some (PDict {[ "precision_ms" := PInt 10 ]})
  /\ _deep_merge_dicts sample_base sample_override !! "ui"
    = Some (PDict (_deep_merge_dicts
         {[ "theme" := PStr "light"; "font" := PDict {[ "size" := PInt 10 ]} ]}
         {[ "font" := PDict {[ "size" := PInt 12 ]} ]}))
  /\ _deep_merge_dicts sample_base sample_override !! "window" = Some (PInt 5).
Proof.
  destruct (C1_deep_merge_union_override_wins sample_base sample_override)
    as (_ & Hbase & Hover & Hrec & Hrepl & _).
  split; [apply Hbase; reflexivity|].
  split; [apply Hover; reflexivity|].
  split; [apply Hrec; reflexivity|].
  apply (Hrepl "window" (PDict {[ "width" := PInt 800 ]})); reflexivity.
Defined.

(** C7: an absent user document counts as the empty tree, and merging the
    empty tree into a tree changes nothing: [load_config] returns the parsed
    default tree, and [merge(B, {}) == B] for every tree [B]. *)
Theorem C7_absent_override_is_noop :
  (forall B : gmap string pyval, _deep_merge_dicts B ∅ = B)
  /\ (forall (parser : string -> outcome pyval) dir text B,
        default_yaml dir = Some text -> parser text = Returns (PDict B) ->
        user_yaml dir = None ->
        load_config parser dir = Returns (PDict B)).
Proof.
  split.
  - intros B. unfold _deep_merge_dicts. apply map_fold_empty.
  - intros parser dir text B Hd Hp Hu. unfold load_config.
    rewrite Hd, Hu. simpl. rewrite Hp. simpl.
    unfold _deep_merge_dicts. by rewrite map_fold_empty.
Qed.

Lemma C7_witness :
  load_config sample_safe_load
    {| default_yaml := Some "ui: {theme: dark}"; user_yaml := None |}
  = Returns (PDict {[ "ui" := PDict {[ "theme" := PStr "dark" ]} ]}).
Proof.
  destruct C7_absent_override_is_noop as [_ Hload].
  apply (Hload sample_safe_load _ "ui: {theme: dark}"); reflexivity.
Defined.

(** C8: merging a tree with itself gives the tree back:
    [merge(B, B) == B]. *)
Theorem C8_self_merge_identity (B : gmap string pyval) :
  _deep_merge_dicts B B = B.
Proof.
  pose proof (merged_value_self_bounded (pyval_size (PDict B)) (PDict B) (le_n _)) as H.
  rewrite merged_value_dict in H. by injection H.
Qed.

(** C4: when the user document exists and the parser rejects it,
    [load_config] returns no tree: with a default document that loads, the
    parser's error on the user document reaches the caller unchanged, and
    whenever the parser gives an answer on the default document the call
    ends in an error. *)
Theorem C4_malformed_override_propagates
    (parser : string -> outcome pyval) (dir : config_dir) (text : string) (e : exn) :
  user_yaml dir = Some text -> parser text = Raises e ->
  (forall v, load_config parser dir <> Returns v)
  /\ (forall t b, default_yaml dir = Some t -> parser t = Returns b ->
        load_config parser dir = Raises e)
  /\ ((forall t, default_yaml dir = Some t -> parser t <> Diverges) ->
        exists e', load_config parser dir = Raises e').
Proof.
  intros Hu Hp. unfold load_config. rewrite Hu.
  destruct (default_yaml dir) as [t|]; simpl.
  - destruct (parser t) as [b| e0 |] eqn:Ht; simpl; rewrite ?Hp; simpl.
    + split; [discriminate|]. split; [|eauto].
      intros t' b' [= <-] Ht'. reflexivity.
    + split; [discriminate|]. split; [|eauto].
      intros t' b' [= <-] Ht'. congruence.
    + split; [discriminate|]. split.
      * intros t' b' [= <-] Ht'. congruence.
      * intros Hnd. exfalso. by apply (Hnd t).
  - split; [discriminate|]. split; [discriminate|eauto].
Qed.

Lemma C4_witness :
  load_config sample_safe_load
    {| default_yaml := Some "ui: {theme: dark}"; user_yaml := Some "ui: {theme: " |}
  = Raises (YAMLError "could not parse").
Proof.
  destruct (C4_malformed_override_propagates sample_safe_load
              {| default_yaml := Some "ui: {theme: dark}"; user_yaml := Some "ui: {theme: " |}
              "ui: {theme: " (YAMLError "could not parse") eq_refl eq_refl)
    as (_ & Hsame & _).
  apply (Hsame "ui: {theme: dark}" (PDict {[ "ui" := PDict {[ "theme" := PStr "dark" ]} ]}));
    reflexivity.
Defined.

(** C5, as the claim states it, fails: with no default document the error
    raised is [FileNotFoundError], not one named [MissingConfiguration]. *)
Lemma C5_counterexample :
  ~ (forall (parser : string -> outcome pyval) (dir : config_dir),
       (default_yaml dir = None
        \/ exists t e, default_yaml dir = Some t /\ parser t = Raises e) ->
       exists e, load_config parser dir = Raises e
                 /\ exc_name e = "MissingConfiguration").
Proof.
  intros H.
  destruct (H sample_safe_load {| default_yaml := None; user_yaml := None |}
              (or_introl eq_refl)) as (e & Hraise & Hname).
  injection Hraise as <-. discriminate Hname.
Qed.

(** C5, amended: without a default document [load_config] raises
    [FileNotFoundError] for its path; with a default document the parser
    rejects, it raises the parser's own error; in both cases it returns no
    tree. *)
Theorem C5_base_failure_raises (parser : string -> outcome pyval) (dir : config_dir) :
  (default_yaml dir = None ->
     load_config parser dir = Raises (FileNotFoundError DEFAULT_CONFIG_PATH))
  /\ (forall t e, default_yaml dir = Some t -> parser t = Raises e ->
        load_config parser dir = Raises e)
  /\ ((default_yaml dir = None
       \/ exists t e, default_yaml dir = Some t /\ parser t = Raises e) ->
      forall v, load_config parser dir <> Returns v).
Proof.
  assert (Habsent : default_yaml dir = None ->
            load_config parser dir = Raises (FileNotFoundError DEFAULT_CONFIG_PATH)).
  { intros Hd. unfold load_config. by rewrite Hd. }
  assert (Hbad : forall t e, default_yaml dir = Some t -> parser t = Raises e ->
            load_config parser dir = Raises e).
  { intros t e Hd Hp. unfold load_config. rewrite Hd. simpl. by rewrite Hp. }
  split; [exact Habsent|]. split; [exact Hbad|].
  intros [Hd | (t & e & Hd & Hp)] v.
  - by rewrite (Habsent Hd).
  - by rewrite (Hbad t e Hd Hp).
Qed.

Lemma C5_witness :
  load_config sample_safe_load {| default_yaml := None; user_yaml := Some "" |}
    = Raises (FileNotFoundError "default.yaml")
  /\ load_config sample_safe_load {| default_yaml := Some "app: [" ; user_yaml := None |}
    = Raises (YAMLError "could not parse").
Proof.
  split.
  - apply (C5_base_failure_raises sample_safe_load
             {| default_yaml := None; user_yaml := Some "" |}). reflexivity.
  - apply (C5_base_failure_raises sample_safe_load
             {| default_yaml := Some "app: [" ; user_yaml := None |}
           ) with (t := "app: ["); reflexivity.
Defined.

(* ===================================================================== *)
(** * Properties of theme resolution *)
(* ===================================================================== *)

Section ThemeFacts.

Lemma getitem_dict_str (d : gmap string pyval) (k : string) :
  getitem (PDict d) (PStr k) =
  match d !! k with
  | Some v => Returns v
  | None => Raises (KeyError (PStr k))
  end.
Proof. reflexivity. Qed.

Lemma get_dict_str (d : gmap string pyval) (k : string) (dflt : pyval) :
  get (PDict d) (PStr k) dflt = Returns (default dflt (d !! k)).
Proof. reflexivity. Qed.

(** The call up to the selection of the palette. *)
Lemma colors_select (cfg ui themes : gmap string pyval) (name : string) :
  cfg !! "ui" = Some (PDict ui) ->
  cfg !! "themes" = Some (PDict themes) ->
  default (PStr "light") (ui !! "theme") = PStr name ->
  _get_colors_from_theme (PDict cfg) =
  theme_config ← getitem (PDict themes) (PStr name);
  bg ← getitem theme_config (PStr "background");
  fg ← getitem theme_config (PStr "foreground");
  panel_bg ← getitem theme_config (PStr "panel_bg");
  accent ← getitem theme_config (PStr "accent");
  highlight ← getitem theme_config (PStr "highlight");
  border ← getitem theme_config (PStr "border");
  mret (PDict (<["bg" := bg]> (<["fg" := fg]> (<["panel_bg" := panel_bg]>
              (<["accent" := accent]> (<["highlight" := highlight]>
              (<["border" := border]> ∅))))))).
Proof.
  intros Hui Hthemes Hname.
  unfold _get_colors_from_theme, mbind, outcome_bind.
  rewrite (getitem_dict_str cfg "ui"), Hui. cbv beta iota.
  rewrite get_dict_str, Hname. cbv beta iota.
  rewrite (getitem_dict_str cfg "themes"), Hthemes. reflexivity.
Qed.

End ThemeFacts.

(** C10: without a ['theme'] key in the ['ui'] mapping the theme name is
    ['light']; the colours are read from exactly the keys [background],
    [foreground], [panel_bg], [accent], [highlight] and [border] of
    [themes[name]]; and a theme name that is no key of ['themes'] ends the
    call in a [KeyError] for that name. *)
Theorem C10_theme_colors (cfg ui themes : gmap string pyval) (name : string) :
  cfg !! "ui" = Some (PDict ui) ->
  cfg !! "themes" = Some (PDict themes) ->
  (ui !! "theme" = None /\ name = "light") \/ ui !! "theme" = Some (PStr name) ->
  (themes !! name = None ->
     _get_colors_from_theme (PDict cfg) = Raises (KeyError (PStr name)))
  /\ (forall palette bg fg panel_bg accent highlight border,
        themes !! name = Some (PDict palette) ->
        palette !! "background" = Some bg -> palette !! "foreground" = Some fg ->
        palette !! "panel_bg" = Some panel_bg -> palette !! "accent" = Some accent ->
        palette !! "highlight" = Some highlight -> palette !! "border" = Some border ->
        _get_colors_from_theme (PDict cfg) =
        Returns (PDict {[ "bg" := bg; "fg" := fg; "panel_bg" := panel_bg;
                          "accent" := accent; "highlight" := highlight;
                          "border" := border ]}))
  /\ (forall palette k,
        themes !! name = Some (PDict palette) ->
        k ∈ palette_keys -> palette !! k = None ->
        exists k', k' ∈ palette_keys /\ palette !! k' = None
                   /\ _get_colors_from_theme (PDict cfg) = Raises (KeyError (PStr k'))).
Proof.
  intros Hui Hthemes Hsel.
  assert (Hname : default (PStr "light") (ui !! "theme") = PStr name).
  { destruct Hsel as [[-> ->] | ->]; reflexivity. }
  rewrite (colors_select cfg ui themes name Hui Hthemes Hname).
  unfold mbind, outcome_bind, mret, outcome_ret. rewrite getitem_dict_str.
  split; [|split].
  - intros ->. reflexivity.
  - intros palette bg fg panel_bg accent highlight border -> Hbg Hfg Hpanel Hacc Hhi Hbo.
    cbv beta iota. rewrite !getitem_dict_str, Hbg, Hfg, Hpanel, Hacc, Hhi, Hbo.
    cbv beta iota. by rewrite insert_empty.
  - intros palette k -> Hk Hnone. cbv beta iota. rewrite !getitem_dict_str.
    unfold palette_keys in *.
    destruct (palette !! "background") eqn:Hbg;
      [|exists "background"; split; [repeat constructor|done]].
    destruct (palette !! "foreground") eqn:Hfg;
      [|exists "foreground"; split; [repeat constructor|done]].
    destruct (palette !! "panel_bg") eqn:Hpanel;
      [|exists "panel_bg"; split; [repeat constructor|done]].
    destruct (palette !! "accent") eqn:Hacc;
      [|exists "accent"; split; [repeat constructor|done]].
    destruct (palette !! "highlight") eqn:Hhi;
      [|exists "highlight"; split; [repeat constructor|done]].
    destruct (palette !! "border") eqn:Hbo;
      [|exists "border"; split; [repeat constructor|done]].
    exfalso. repeat (apply elem_of_cons in Hk as [-> | Hk]; [congruence|]).
    by apply elem_of_nil in Hk.
Qed.

Lemma C10_witness :
  _get_colors_from_theme (PDict sample_config)
    = Returns (PDict {[ "bg" := PStr "#ffffff"; "fg" := PStr "#000000";
                        "panel_bg" := PStr "#f0f0f0"; "accent" := PStr "#3366cc";
                        "highlight" := PStr "#ffcc00"; "border" := PStr "#cccccc" ]})
  /\ _get_colors_from_theme (PDict sample_config_dark) = Raises (KeyError (PStr "dark")).
Proof.
  split.
  - destruct (C10_theme_colors sample_config sample_ui sample_themes "light"
                eq_refl eq_refl (or_introl (conj eq_refl eq_refl))) as (_ & Hcolors & _).
    apply (Hcolors sample_palette); reflexivity.
  - destruct (C10_theme_colors sample_config_dark {[ "theme" := PStr "dark" ]}
                sample_themes "dark" eq_refl eq_refl (or_intror eq_refl)) as (Hmissing & _).
    apply Hmissing. reflexivity.
Defined.

(* ===================================================================== *)
(** * Properties of container construction *)
(* ===================================================================== *)

Section ContainerFacts.

Implicit Types σ : store.
Implicit Types c : container.
Implicit Types node : option nat.

Lemma count_kind_cons kind c cs :
  count_kind kind (c :: cs) =
  (if decide (CONTAINER_TYPE (class_of c) = kind) then 1 else 0) + count_kind kind cs.
Proof.
  unfold count_kind. rewrite filter_cons.
  destruct (decide (CONTAINER_TYPE (class_of c) = kind)); reflexivity.
Qed.

(** A chain of links has one list of ancestors. *)
Lemma ancestors_functional σ node anc1 anc2 :
  ancestors σ node anc1 -> ancestors σ node anc2 -> anc1 = anc2.
Proof.
  intros H1. revert anc2.
  induction H1 as [|p c rest Hp _ IH]; intros anc2 H2; inversion H2; subst.
  - reflexivity.
  - assert (c0 = c) as -> by congruence. f_equal. by apply IH.
Qed.

(** The walk computes the count along the list of ancestors as soon as its
    bound covers the list. *)
Lemma walk_up_ancestors σ kind node anc :
  ancestors σ node anc ->
  forall steps count, length anc <= steps ->
  walk_up steps σ kind node count = Some (count + count_kind kind anc).
Proof.
  induction 1 as [|p c rest Hp _ IH]; intros steps count Hlen.
  - destruct steps; simpl; f_equal; unfold count_kind; simpl; lia.
  - destruct steps as [|steps]; simpl in Hlen; [lia|].
    simpl. rewrite Hp. simpl. rewrite IH by lia.
    rewrite count_kind_cons. f_equal.
    destruct (decide (CONTAINER_TYPE (class_of c) = kind)); lia.
Qed.

(** In a store where parents precede their children every chain ends. *)
Lemma ancestors_exists σ :
  hierarchy_ok σ ->
  forall n p, p < n -> p < length σ ->
  exists anc, ancestors σ (Some p) anc /\ length anc <= S p.
Proof.
  intros Hok. induction n as [|n IH]; intros p Hn Hp; [lia|].
  destruct (lookup_lt_is_Some_2 σ p Hp) as [c Hc].
  destruct (parent_container c) as [q|] eqn:Hq.
  - pose proof (Hok p c q Hc Hq) as Hlt.
    destruct (IH q) as (anc & Hanc & Hlen); [lia|lia|].
    exists (c :: anc). split; [|simpl; lia].
    eapply ancestors_step; [exact Hc|]. by rewrite Hq.
  - exists [c]. split; [|simpl; lia].
    eapply ancestors_step; [exact Hc|]. rewrite Hq. constructor.
Qed.

(** A list of ancestors carries over to a store with the same links and
    classes. *)
Lemma ancestors_transport σ σ' node anc :
  (forall i c, σ !! i = Some c ->
     exists c', σ' !! i = Some c'
                /\ parent_container c' = parent_container c
                /\ class_of c' = class_of c) ->
  ancestors σ node anc ->
  exists anc', ancestors σ' node anc'
               /\ length anc' = length anc
               /\ forall kind, count_kind kind anc' = count_kind kind anc.
Proof.
  intros Hsame. induction 1 as [|p c rest Hp _ (rest' & Hrest' & Hlen & Hcount)].
  - exists []. repeat split. constructor.
  - destruct (Hsame p c Hp) as (c' & Hc' & Hpar & Hcls).
    exists (c' :: rest'). split; [|split].
    + eapply ancestors_step; [exact Hc'|]. by rewrite Hpar.
    + simpl. by rewrite Hlen.
    + intros kind. by rewrite !count_kind_cons, Hcls, Hcount.
Qed.

(** Allocating further containers leaves the existing chains alone. *)
Lemma ancestors_app σ added node anc :
  ancestors σ node anc -> ancestors (σ ++ added) node anc.
Proof.
  induction 1 as [|p c rest Hp _ IH]; [constructor|].
  eapply ancestors_step; [|exact IH]. by apply lookup_app_l_Some.
Qed.

Lemma alter_snoc (f : container -> container) σ c :
  alter f (length σ) (σ ++ [c]) = σ ++ [f c].
Proof.
  rewrite <- (Nat.add_0_r (length σ)) at 1. by rewrite alter_app_r.
Qed.

(** The parent container [__init__] records for a [parent] argument. *)
Lemma recorded_parent_lt σ parent p :
  match parent with
  | Ref q => if σ !! q is Some _ then Some q else None
  | Widget => None
  end = Some p ->
  parent = Ref p /\ p < length σ.
Proof.
  destruct parent as [|q]; [discriminate|].
  destruct (σ !! q) eqn:Hq; [|discriminate].
  intros [= ->]. split; [reflexivity|]. by eapply lookup_lt_Some.
Qed.

(** What [__init__] returns on a store where parents precede their
    children: the new container at the end of the store, with its depth
    counted along the ancestors of the old store, and the parent container,
    if any, with one more child. *)
Lemma init_returns klass parent title σ :
  hierarchy_ok σ ->
  let recorded :=
    match parent with
    | Ref q => if σ !! q is Some _ then Some q else None
    | Widget => None
    end in
  exists anc,
    ancestors σ recorded anc
    /\ __init__ klass parent title σ =
       Returns (length σ,
                match recorded with
                | Some p => alter (append_child (length σ)) p σ
                | None => σ
                end ++
                [ {| class_of := klass; parent_container := recorded; title := title;
                     children_containers := [];
                     depth := Some (count_kind (CONTAINER_TYPE klass) anc);
                     style_tokens :=
                       Some (default (PStr (BASE_COLOR klass))
                               (DEPTH_STYLES klass
                                  !! count_kind (CONTAINER_TYPE klass) anc)) |} ])%list.
Proof.
  intros Hok recorded.
  assert (Hanc : exists anc, ancestors σ recorded anc /\ length anc <= length σ).
  { destruct recorded as [p|] eqn:Hrec.
    - apply recorded_parent_lt in Hrec as [_ Hp].
      destruct (ancestors_exists σ Hok (S p) p) as (anc & Hanc & Hlen); [lia|lia|].
      exists anc. split; [done|lia].
    - exists []. split; [constructor|simpl; lia]. }
  destruct Hanc as (anc & Hanc & Hlen). exists anc. split; [exact Hanc|].
  unfold __init__. fold recorded.
  set (new0 := {| class_of := klass; parent_container := recorded; title := title;
                  children_containers := []; depth := None; style_tokens := None |}).
  assert (Hanc1 : ancestors (σ ++ [new0]) recorded anc).
  { by apply ancestors_app. }
  unfold _compute_relative_depth.
  rewrite (list_lookup_middle σ [] new0 (length σ) eq_refl).
  cbn [class_of parent_container new0].
  rewrite (walk_up_ancestors _ _ _ _ Hanc1) by (rewrite length_app; simpl; lia).
  cbn [mbind outcome_bind]. rewrite Nat.add_0_l.
  rewrite alter_snoc.
  unfold _resolve_style_tokens.
  rewrite (list_lookup_middle σ [] _ (length σ) eq_refl).
  cbn [set_depth depth class_of new0 mbind outcome_bind].
  rewrite alter_snoc.
  unfold _build_structure.
  rewrite (list_lookup_middle σ [] _ (length σ) eq_refl).
  cbn [set_style_tokens set_depth parent_container class_of Containers.title
       children_containers depth style_tokens new0].
  destruct recorded as [p|] eqn:Hrec; cbn [mbind outcome_bind mret outcome_ret].
  - apply recorded_parent_lt in Hrec as [_ Hp].
    by rewrite alter_app_l.
  - reflexivity.
Qed.

(** The same result, read container by container. *)
Lemma init_lookup klass parent title σ :
  hierarchy_ok σ ->
  let recorded :=
    match parent with
    | Ref q => if σ !! q is Some _ then Some q else None
    | Widget => None
    end in
  exists σ' anc,
    __init__ klass parent title σ = Returns (length σ, σ')
    /\ ancestors σ recorded anc
    /\ length σ' = S (length σ)
    /\ σ' !! length σ =
       Some {| class_of := klass; parent_container := recorded; title := title;
               children_containers := [];
               depth := Some (count_kind (CONTAINER_TYPE klass) anc);
               style_tokens :=
                 Some (default (PStr (BASE_COLOR klass))
                         (DEPTH_STYLES klass
                            !! count_kind (CONTAINER_TYPE klass) anc)) |}
    /\ (forall i c, σ !! i = Some c ->
          σ' !! i = Some (if decide (recorded = Some i)
                          then append_child (length σ) c else c)).
Proof.
  intros Hok recorded.
  destruct (init_returns klass parent title σ Hok) as (anc & Hanc & Hinit).
  fold recorded in Hanc, Hinit.
  eexists _, anc. split; [exact Hinit|]. split; [exact Hanc|].
  assert (Hlen : length (match recorded with
                         | Some p => alter (append_child (length σ)) p σ
                         | None => σ
                         end) = length σ).
  { destruct recorded; [apply length_alter|reflexivity]. }
  split; [|split].
  - rewrite length_app, Hlen. simpl. lia.
  - by apply list_lookup_middle.
  - intros i c Hi. apply lookup_app_l_Some.
    destruct recorded as [p|].
    + rewrite list_lookup_alter. destruct (decide (p = i)) as [->|Hne].
      * rewrite Hi. simpl. by rewrite decide_True.
      * rewrite Hi. rewrite decide_False; [done|congruence].
    + by rewrite decide_False.
Qed.

(** Construction raises no exception, on any store. *)
Lemma init_never_raises klass parent title σ e :
  __init__ klass parent title σ <> Raises e.
Proof.
  unfold __init__, _compute_relative_depth.
  rewrite (list_lookup_middle σ [] _ (length σ) eq_refl).
  destruct (walk_up _ _ _ _ _) as [d|]; cbn [mbind outcome_bind]; [|discriminate].
  rewrite alter_snoc. unfold _resolve_style_tokens.
  rewrite (list_lookup_middle σ [] _ (length σ) eq_refl).
  cbn [set_depth depth mbind outcome_bind].
  rewrite alter_snoc. unfold _build_structure.
  rewrite (list_lookup_middle σ [] _ (length σ) eq_refl).
  cbn [set_style_tokens parent_container].
  destruct (match parent with Widget => None | Ref _ => _ end); discriminate.
Qed.

Lemma hierarchy_ok_nil : hierarchy_ok [].
Proof. intros i c p Hi. by rewrite lookup_nil in Hi. Qed.

(** Construction keeps parents before their children. *)
Lemma init_hierarchy_ok klass parent title σ self σ' :
  hierarchy_ok σ ->
  __init__ klass parent title σ = Returns (self, σ') ->
  hierarchy_ok σ'.
Proof.
  intros Hok Hinit.
  destruct (init_lookup klass parent title σ Hok) as (σ'' & anc & Hret & _ & Hlen & Hnew & Hold).
  rewrite Hinit in Hret. injection Hret as -> <-.
  intros i c p Hi Hp.
  destruct (decide (i < length σ)) as [Hlt|Hge].
  - destruct (lookup_lt_is_Some_2 σ i Hlt) as [c0 Hc0].
    rewrite (Hold i c0 Hc0) in Hi. injection Hi as <-.
    apply (Hok i c0 p Hc0). by destruct (decide _).
  - assert (i = length σ) as ->.
    { apply lookup_lt_Some in Hi. lia. }
    rewrite Hnew in Hi. injection Hi as <-. simpl in Hp.
    by apply recorded_parent_lt in Hp as [_ Hp].
Qed.

End ContainerFacts.

(** C2: the depth of a new container is the number of its ancestors, along
    the [parent_container] links, whose kind is its own kind, and 0 when no
    ancestor has that kind; in Section→Task→Task the Section and the outer
    Task have depth 0 and the inner Task has depth 1. *)
Theorem C2_relative_depth
    (klass : container_class) (parent : tk_parent) (title : string) (σ : store) :
  hierarchy_ok σ ->
  (exists σ' c anc,
     __init__ klass parent title σ = Returns (length σ, σ')
     /\ σ' !! length σ = Some c
     /\ class_of c = klass
     /\ ancestors σ' (parent_container c) anc
     /\ depth c = Some (count_kind (CONTAINER_TYPE (class_of c)) anc)
     /\ (Forall (fun a => CONTAINER_TYPE (class_of a) <> CONTAINER_TYPE (class_of c)) anc ->
         depth c = Some 0)
     /\ hierarchy_ok σ')
  /\ (exists σ3,
        section_task_task = Returns (2, σ3)
        /\ (CONTAINER_TYPE ∘ class_of) <$> σ3 = [SECTION; TASK; TASK]
        /\ parent_container <$> σ3 = [None; Some 0; Some 1]
        /\ depth <$> σ3 = [Some 0; Some 0; Some 1]).
Proof.
  intros Hok. split; [|eexists; vm_compute; repeat split].
  destruct (init_lookup klass parent title σ Hok)
    as (σ' & anc & Hinit & Hanc & Hlen & Hnew & Hold).
  assert (Hlinks : forall i c, σ !! i = Some c ->
            exists c', σ' !! i = Some c'
                       /\ parent_container c' = parent_container c
                       /\ class_of c' = class_of c).
  { intros i c Hi. rewrite (Hold i c Hi). eexists. split; [reflexivity|].
    by destruct (decide _). }
  destruct (ancestors_transport σ σ' _ anc Hlinks Hanc) as (anc' & Hanc' & _ & Hcount).
  eexists σ', _, anc'. split; [exact Hinit|]. split; [exact Hnew|].
  cbn [class_of parent_container depth].
  split; [reflexivity|]. split; [exact Hanc'|].
  split; [by rewrite Hcount|]. split.
  - intros Hall. rewrite <- Hcount. f_equal.
    clear -Hall. induction Hall as [|a rest Ha _ IH]; [reflexivity|].
    rewrite count_kind_cons, IH. by rewrite decide_False.
  - by eapply init_hierarchy_ok.
Qed.

Lemma C2_witness :
  exists σ' c anc,
    __init__ TaskContainer (Ref 0) "Talk to Whisper"
      [ {| class_of := TaskContainer; parent_container := None; title := "Prologue";
           children_containers := []; depth := Some 0;
           style_tokens := Some (PStr "base") |} ]
    = Returns (1, σ')
    /\ σ' !! 1 = Some c
    /\ ancestors σ' (parent_container c) anc
    /\ depth c = Some (count_kind TASK anc).
Proof.
  destruct (C2_relative_depth TaskContainer (Ref 0) "Talk to Whisper"
              [ {| class_of := TaskContainer; parent_container := None;
                   title := "Prologue"; children_containers := []; depth := Some 0;
                   style_tokens := Some (PStr "base") |} ])
    as [(σ' & c & anc & Hinit & Hnew & Hcls & Hanc & Hdepth & _) _].
  - intros [|i] c p Hi Hp; simpl in Hi; [|destruct i; discriminate].
    injection Hi as <-. discriminate.
  - exists σ', c, anc. rewrite Hcls in Hdepth. auto.
Defined.

(** C3: the style of a new container is the entry of its depth in the
    depth-to-style table of its kind when there is one, and the base style of
    the kind otherwise; construction raises nothing and leaves the style set.
    A Task with the table [{0: "base", 1: "deep"}] at depth 2 gets the base
    style. *)
Theorem C3_style_resolution
    (klass : container_class) (parent : tk_parent) (title : string) (σ : store) :
  (forall e, __init__ klass parent title σ <> Raises e)
  /\ (hierarchy_ok σ ->
      exists σ' c d,
        __init__ klass parent title σ = Returns (length σ, σ')
        /\ σ' !! length σ = Some c
        /\ depth c = Some d
        /\ (forall s, DEPTH_STYLES klass !! d = Some s -> style_tokens c = Some s)
        /\ (DEPTH_STYLES klass !! d = None ->
            style_tokens c = Some (PStr (BASE_COLOR klass))))
  /\ (exists σ3 c,
        task_task_task = Returns (2, σ3)
        /\ σ3 !! 2 = Some c
        /\ DEPTH_STYLES (class_of c) = {[ 0 := PStr "base"; 1 := PStr "deep" ]}
        /\ depth c = Some 2
        /\ style_tokens c = Some (PStr (BASE_COLOR (class_of c)))).
Proof.
  split; [intros e; apply init_never_raises|].
  split; [|eexists _, _; vm_compute; repeat split].
  intros Hok.
  destruct (init_lookup klass parent title σ Hok)
    as (σ' & anc & Hinit & _ & _ & Hnew & _).
  eexists σ', _, _. split; [exact Hinit|]. split; [exact Hnew|].
  cbn [depth style_tokens]. split; [reflexivity|].
  split; [intros s ->|intros ->]; reflexivity.
Qed.

Lemma C3_witness :
  exists σ' c d,
    __init__ SectionContainer Widget "Chapter 1" [] = Returns (0, σ')
    /\ σ' !! 0 = Some c
    /\ depth c = Some d
    /\ (DEPTH_STYLES SectionContainer !! d = None ->
        style_tokens c = Some (PStr "#203040")).
Proof.
  destruct (C3_style_resolution SectionContainer Widget "Chapter 1" [])
    as (_ & Hstyle & _).
  destruct Hstyle as (σ' & c & d & Hinit & Hnew & Hdepth & _ & Hbase).
  - intros i c p Hi. destruct i; discriminate.
  - exists σ', c, d. auto.
Defined.

(** C9: construction changes nothing but the new container and the list of
    children of its parent container: the new container is the last child of
    that parent, whose other fields are as before, and every other container
    is as before. *)
Theorem C9_construction_frame
    (klass : container_class) (parent : tk_parent) (title : string) (σ : store) :
  hierarchy_ok σ ->
  exists σ' new,
    __init__ klass parent title σ = Returns (length σ, σ')
    /\ length σ' = S (length σ)
    /\ σ' !! length σ = Some new
    /\ (forall p pc, parent = Ref p -> σ !! p = Some pc ->
          exists pc',
            σ' !! p = Some pc'
            /\ parent_container new = Some p
            /\ children_containers pc' = children_containers pc ++ [length σ]
            /\ last (children_containers pc') = Some (length σ)
            /\ class_of pc' = class_of pc
            /\ parent_container pc' = parent_container pc
            /\ Containers.title pc' = Containers.title pc
            /\ depth pc' = depth pc
            /\ style_tokens pc' = style_tokens pc)
    /\ (forall i c, σ !! i = Some c -> parent <> Ref i -> σ' !! i = Some c).
Proof.
  intros Hok.
  destruct (init_lookup klass parent title σ Hok)
    as (σ' & anc & Hinit & _ & Hlen & Hnew & Hold).
  eexists σ', _. split; [exact Hinit|]. split; [exact Hlen|]. split; [exact Hnew|].
  split.
  - intros p pc -> Hp. rewrite (Hold p pc Hp), Hp. cbn [parent_container].
    rewrite decide_True by reflexivity.
    eexists. split; [reflexivity|]. cbn.
    repeat split. apply last_snoc.
  - intros i c Hi Hne. rewrite (Hold i c Hi).
    rewrite decide_False; [reflexivity|].
    intros Hrec. apply recorded_parent_lt in Hrec as [-> _]. by apply Hne.
Qed.

Lemma C9_witness :
  exists σ' new,
    __init__ TaskContainer (Ref 0) "Talk to Whisper"
      [ {| class_of := SectionContainer; parent_container := None; title := "Chapter 1";
           children_containers := [7]; depth := Some 0;
           style_tokens := Some (PStr "#203040") |} ]
    = Returns (1, σ')
    /\ σ' !! 1 = Some new
    /\ exists pc', σ' !! 0 = Some pc' /\ children_containers pc' = [7; 1].
Proof.
  destruct (C9_construction_frame TaskContainer (Ref 0) "Talk to Whisper"
              [ {| class_of := SectionContainer; parent_container := None;
                   title := "Chapter 1"; children_containers := [7]; depth := Some 0;
                   style_tokens := Some (PStr "#203040") |} ])
    as (σ' & new & Hinit & _ & Hnew & Hparent & _).
  - intros [|i] c p Hi Hp; simpl in Hi; [|destruct i; discriminate].
    injection Hi as <-. discriminate.
  - exists σ', new. split; [exact Hinit|]. split; [exact Hnew|].
    destruct (Hparent 0 _ eq_refl eq_refl) as (pc' & Hpc' & _ & Hchildren & _).
    exists pc'. split; [exact Hpc'|exact Hchildren].
Defined.

(* ===================================================================== *)
(** * Further properties of the configuration merge *)
(* ===================================================================== *)

Section MoreMergeFacts.

Implicit Types base override d : gmap string pyval.

Lemma merged_value_fresh (v : pyval) : merged_value v None = v.
Proof. by destruct v. Qed.

Lemma merged_value_scalar (v : pyval) (existing : option pyval) :
  is_dict v = false -> merged_value v existing = v.
Proof. by destruct v. Qed.

(** Merging a value a second time into the result of merging it changes
    nothing. *)
Lemma merged_value_twice_bounded n :
  forall (v : pyval) (existing : option pyval),
    pyval_size v <= n ->
    merged_value v (Some (merged_value v existing)) = merged_value v existing.
Proof.
  induction n as [|n IH]; intros v existing Hn.
  - destruct v; simpl in Hn; lia.
  - destruct v; try reflexivity.
    destruct existing as [[| | | | | |rd]|];
      try (apply (merged_value_self_bounded (S n)); exact Hn).
    rewrite !merged_value_dict. f_equal.
    apply map_eq. intros k. rewrite !deep_merge_lookup.
    destruct (d !! k) as [x|] eqn:Hk; [|reflexivity].
    f_equal. apply IH.
    pose proof (pyval_size_lookup d k x Hk). lia.
Qed.

End MoreMergeFacts.

(** X1: merging an override into the empty tree gives the override. *)
Theorem X1_merge_into_empty (override : gmap string pyval) :
  _deep_merge_dicts ∅ override = override.
Proof.
  apply map_eq. intros k. rewrite deep_merge_lookup, lookup_empty.
  destruct (override !! k); [|reflexivity]. by rewrite merged_value_fresh.
Qed.

(** X2: applying the same override a second time changes nothing. *)
Theorem X2_override_applied_twice (base override : gmap string pyval) :
  _deep_merge_dicts (_deep_merge_dicts base override) override
  = _deep_merge_dicts base override.
Proof.
  apply map_eq. intros k. rewrite !deep_merge_lookup.
  destruct (override !! k) as [v|] eqn:Hk; [|reflexivity].
  f_equal. by apply (merged_value_twice_bounded (pyval_size v)).
Qed.

(** X3: when no key holds a mapping in both trees, the merge is the plain
    update of [base] by [override]; on trees without a common key it is their
    union, whichever of the two is the override. *)
Theorem X3_flat_merge_is_update (base override : gmap string pyval) :
  ((forall k vb vo, base !! k = Some vb -> override !! k = Some vo ->
      is_dict vb && is_dict vo = false) ->
   _deep_merge_dicts base override = override ∪ base)
  /\ (dom base ## dom override ->
      _deep_merge_dicts base override = base ∪ override
      /\ _deep_merge_dicts override base = _deep_merge_dicts base override).
Proof.
  assert (Hflat : forall b o : gmap string pyval,
            (forall k vb vo, b !! k = Some vb -> o !! k = Some vo ->
               is_dict vb && is_dict vo = false) ->
            _deep_merge_dicts b o = o ∪ b).
  { intros b o Hno. apply map_eq. intros k.
    rewrite deep_merge_lookup.
    destruct (o !! k) as [vo|] eqn:Ho.
    - rewrite (lookup_union_l' o b k) by by rewrite Ho.
      rewrite Ho. f_equal.
      destruct (b !! k) as [vb|] eqn:Hb; [|apply merged_value_fresh].
      apply merged_value_not_both. intros [Hvo [rd Hrd]].
      injection Hrd as ->. specialize (Hno k _ _ Hb Ho). simpl in Hno. congruence.
    - by rewrite (lookup_union_r o b k Ho). }
  split; [apply Hflat|].
  intros Hdisj.
  assert (Hmd : base ##ₘ override) by by apply map_disjoint_dom.
  assert (Hnone : forall b o : gmap string pyval, b ##ₘ o ->
            forall k vb vo, b !! k = Some vb -> o !! k = Some vo ->
              is_dict vb && is_dict vo = false).
  { intros b o Hbo k vb vo Hb Ho. exfalso.
    by apply (map_disjoint_spec b o) with (i := k) (x := vb) (y := vo). }
  rewrite (Hflat base override (Hnone _ _ Hmd)).
  rewrite (Hflat override base (Hnone _ _ (symmetry Hmd))).
  split; [symmetry|]; by apply map_union_comm.
Qed.

Lemma X3_witness :
  _deep_merge_dicts {[ "window" := PDict {[ "width" := PInt 800 ]} ]}
                    {[ "window" := PInt 5; "timer" := PInt 1 ]}
  = {[ "window" := PInt 5; "timer" := PInt 1 ]}
      ∪ {[ "window" := PDict {[ "width" := PInt 800 ]} ]}
  /\ _deep_merge_dicts {[ "app" := PStr "YWAR" ]} {[ "timer" := PInt 1 ]}
     = {[ "app" := PStr "YWAR" ]} ∪ {[ "timer" := PInt 1 ]}.
Proof.
  split.
  - destruct (X3_flat_merge_is_update
                {[ "window" := PDict {[ "width" := PInt 800 ]} ]}
                {[ "window" := PInt 5; "timer" := PInt 1 ]}) as [Hflat _].
    apply Hflat. intros k vb vo Hb Ho.
    destruct (decide (k = "window")) as [->|Hne].
    + rewrite lookup_insert_eq in Ho. injection Ho as <-. apply andb_false_r.
    + rewrite lookup_singleton_ne in Hb by done. discriminate.
  - destruct (X3_flat_merge_is_update
                {[ "app" := PStr "YWAR" ]} {[ "timer" := PInt 1 ]}) as [_ Hdisjoint].
    apply Hdisjoint.
    rewrite !dom_singleton_L. by apply disjoint_singleton_l, not_elem_of_singleton.
Defined.

(** X4: an override that names one setting inside one group,
    [{group: {name: value}}] with a [value] that is no mapping, changes that
    setting in a [base] whose [group] is a mapping and leaves the other
    settings of the group and the other groups as they are. *)
Theorem X4_single_setting_override
    (base group : gmap string pyval) (g name : string) (value : pyval) :
  base !! g = Some (PDict group) ->
  is_dict value = false ->
  _deep_merge_dicts base {[ g := PDict {[ name := value ]} ]}
  = <[ g := PDict (<[ name := value ]> group) ]> base.
Proof.
  intros Hg Hvalue. apply map_eq. intros k. rewrite deep_merge_lookup.
  destruct (decide (g = k)) as [<-|Hne].
  - rewrite lookup_singleton_eq, lookup_insert_eq, Hg, merged_value_dict.
    do 2 f_equal. apply map_eq. intros j. rewrite deep_merge_lookup.
    destruct (decide (name = j)) as [<-|Hnej].
    + rewrite lookup_singleton_eq, lookup_insert_eq. f_equal.
      by apply merged_value_scalar.
    + by rewrite lookup_singleton_ne, lookup_insert_ne.
  - by rewrite lookup_singleton_ne, lookup_insert_ne.
Qed.

Lemma X4_witness :
  _deep_merge_dicts sample_base {[ "ui" := PDict {[ "theme" := PStr "dark" ]} ]}
  = <[ "ui" := PDict (<[ "theme" := PStr "dark" ]>
                        {[ "theme" := PStr "light";
                           "font" := PDict {[ "size" := PInt 10 ]} ]}) ]> sample_base.
Proof.
  exact (X4_single_setting_override sample_base
           {[ "theme" := PStr "light"; "font" := PDict {[ "size" := PInt 10 ]} ]}
           "ui" "theme" (PStr "dark") eq_refl eq_refl).
Defined.

(* ===================================================================== *)
(** * Further properties of loading *)
(* ===================================================================== *)

Section MoreLoadFacts.

Variable parser : string -> outcome pyval.

(** Once the default document has parsed, the outcome is that of the merge
    with the user configuration. *)
Lemma load_config_default_parsed dir t b :
  default_yaml dir = Some t -> parser t = Returns b ->
  load_config parser dir =
  match user_yaml dir with
  | Some u =>
      match parser u with
      | Returns v => call_deep_merge_dicts b (py_or v (PDict ∅))
      | Raises e => Raises e
      | Diverges => Diverges
      end
  | None => call_deep_merge_dicts b (PDict ∅)
  end.
Proof.
  intros Hd Ht. unfold load_config. rewrite Hd. simpl. rewrite Ht. simpl.
  destruct (user_yaml dir) as [u|]; [|reflexivity].
  simpl. by destruct (parser u).
Qed.

Lemma py_or_empty_dict (U : gmap string pyval) :
  py_or (PDict U) (PDict ∅) = PDict U.
Proof.
  unfold py_or. simpl. destruct (size U =? 0)%nat eqn:Hsize; [|reflexivity].
  apply Nat.eqb_eq, map_size_empty_iff in Hsize. by rewrite Hsize.
Qed.

End MoreLoadFacts.

(** X5: when both documents parse to mappings, [load_config] returns the deep
    merge of the user mapping over the default mapping. *)
Theorem X5_load_config_merges
    (parser : string -> outcome pyval) (dir : config_dir) (t u : string)
    (B U : gmap string pyval) :
  default_yaml dir = Some t -> parser t = Returns (PDict B) ->
  user_yaml dir = Some u -> parser u = Returns (PDict U) ->
  load_config parser dir = Returns (PDict (_deep_merge_dicts B U)).
Proof.
  intros Hd Ht Hu Hpu.
  rewrite (load_config_default_parsed parser dir t _ Hd Ht), Hu, Hpu.
  by rewrite py_or_empty_dict.
Qed.

Lemma X5_witness :
  load_config sample_safe_load
    {| default_yaml := Some "ui: {theme: dark}"; user_yaml := Some "ui: {font: {size: 12}}" |}
  = Returns (PDict (_deep_merge_dicts
       {[ "ui" := PDict {[ "theme" := PStr "dark" ]} ]}
       {[ "ui" := PDict {[ "font" := PDict {[ "size" := PInt 12 ]} ]} ]})).
Proof.
  exact (X5_load_config_merges sample_safe_load
           {| default_yaml := Some "ui: {theme: dark}";
              user_yaml := Some "ui: {font: {size: 12}}" |}
           "ui: {theme: dark}" "ui: {font: {size: 12}}" _ _
           eq_refl eq_refl eq_refl eq_refl).
Defined.

(** X6: a user document that parses to a false object (an empty document,
    [null], [false], [0], an empty string, sequence or mapping) is treated
    like an absent one: [load_config] returns the default mapping. *)
Theorem X6_falsy_user_document_ignored
    (parser : string -> outcome pyval) (dir : config_dir) (t u : string)
    (B : gmap string pyval) (v : pyval) :
  default_yaml dir = Some t -> parser t = Returns (PDict B) ->
  user_yaml dir = Some u -> parser u = Returns v ->
  py_bool v = false ->
  load_config parser dir = Returns (PDict B).
Proof.
  intros Hd Ht Hu Hpu Hfalse.
  rewrite (load_config_default_parsed parser dir t _ Hd Ht), Hu, Hpu.
  unfold py_or. rewrite Hfalse. simpl.
  unfold _deep_merge_dicts. by rewrite map_fold_empty.
Qed.

Lemma X6_witness :
  load_config sample_safe_load
    {| default_yaml := Some "ui: {theme: dark}"; user_yaml := Some "" |}
  = Returns (PDict {[ "ui" := PDict {[ "theme" := PStr "dark" ]} ]}).
Proof.
  exact (X6_falsy_user_document_ignored sample_safe_load
           {| default_yaml := Some "ui: {theme: dark}"; user_yaml := Some "" |}
           "ui: {theme: dark}" "" _ PNone eq_refl eq_refl eq_refl eq_refl eq_refl).
Defined.

(** X7: a user document that parses to a true object that is no mapping (a
    number, a text, a non-empty sequence) makes [load_config] raise
    [AttributeError] for [items], with a default document that is a mapping
    or a sequence. *)
Theorem X7_non_mapping_user_document
    (parser : string -> outcome pyval) (dir : config_dir) (t u : string) (b v : pyval) :
  default_yaml dir = Some t -> parser t = Returns b ->
  (is_dict b = true \/ exists l, b = PList l) ->
  user_yaml dir = Some u -> parser u = Returns v ->
  py_bool v = true -> is_dict v = false ->
  load_config parser dir = Raises (AttributeError "items").
Proof.
  intros Hd Ht Hb Hu Hpu Htrue Hnodict.
  rewrite (load_config_default_parsed parser dir t _ Hd Ht), Hu, Hpu.
  unfold py_or. rewrite Htrue.
  destruct Hb as [Hb | [l ->]].
  - destruct b; try discriminate. by destruct v.
  - by destruct v.
Qed.

Lemma X7_witness :
  load_config (fun text => if String.eqb text "- a" then Returns (PList [PStr "a"])
                           else sample_safe_load text)
    {| default_yaml := Some "ui: {theme: dark}"; user_yaml := Some "- a" |}
  = Raises (AttributeError "items").
Proof.
  apply (X7_non_mapping_user_document _ _ "ui: {theme: dark}" "- a"
           (PDict {[ "ui" := PDict {[ "theme" := PStr "dark" ]} ]}) (PList [PStr "a"]));
    try reflexivity.
  left. reflexivity.
Defined.

(** X8: a default document that parses to [None] (an empty document), a
    boolean, a number or a text makes [load_config] raise [AttributeError]
    for [copy], once the user document, if there is one, has parsed. *)
Theorem X8_scalar_default_document
    (parser : string -> outcome pyval) (dir : config_dir) (t : string) (b : pyval) :
  default_yaml dir = Some t -> parser t = Returns b ->
  match b with
  | PNone | PBool _ | PInt _ | PFloat _ | PStr _ => True
  | PList _ | PDict _ => False
  end ->
  (user_yaml dir = None \/ exists u v, user_yaml dir = Some u /\ parser u = Returns v) ->
  load_config parser dir = Raises (AttributeError "copy").
Proof.
  intros Hd Ht Hscalar Huser.
  rewrite (load_config_default_parsed parser dir t _ Hd Ht).
  assert (Hcall : forall o, call_deep_merge_dicts b o = Raises (AttributeError "copy")).
  { intros o. by destruct b. }
  destruct Huser as [-> | (u & v & -> & ->)]; apply Hcall.
Qed.

Lemma X8_witness :
  load_config sample_safe_load {| default_yaml := Some ""; user_yaml := None |}
  = Raises (AttributeError "copy").
Proof.
  apply (X8_scalar_default_document sample_safe_load _ "" PNone);
    [reflexivity | reflexivity | exact I | by left].
Defined.

(** X9: a default document that parses to a sequence is returned as it is
    when the user document is absent or false, although it is no mapping;
    with a user document that is a non-empty mapping keyed by strings
    [load_config] raises [TypeError]. *)
Theorem X9_sequence_default_document
    (parser : string -> outcome pyval) (dir : config_dir) (t : string) (l : list pyval) :
  default_yaml dir = Some t -> parser t = Returns (PList l) ->
  (user_yaml dir = None -> load_config parser dir = Returns (PList l))
  /\ (forall u v, user_yaml dir = Some u -> parser u = Returns v -> py_bool v = false ->
        load_config parser dir = Returns (PList l))
  /\ (forall u U, user_yaml dir = Some u -> parser u = Returns (PDict U) -> U <> ∅ ->
        exists msg, load_config parser dir = Raises (TypeError msg)).
Proof.
  intros Hd Ht. rewrite (load_config_default_parsed parser dir t _ Hd Ht).
  split; [|split].
  - intros ->. reflexivity.
  - intros u v -> -> Hfalse. unfold py_or. by rewrite Hfalse.
  - intros u U -> -> Hne. rewrite py_or_empty_dict. simpl.
    destruct (size U =? 0)%nat eqn:Hsize; [|eauto].
    apply Nat.eqb_eq, map_size_empty_iff in Hsize. by destruct Hne.
Qed.

Lemma X9_witness :
  load_config (fun text => if String.eqb text "- a" then Returns (PList [PStr "a"])
                           else sample_safe_load text)
    {| default_yaml := Some "- a"; user_yaml := None |}
  = Returns (PList [PStr "a"]).
Proof.
  destruct (X9_sequence_default_document
              (fun text => if String.eqb text "- a" then Returns (PList [PStr "a"])
                           else sample_safe_load text)
              {| default_yaml := Some "- a"; user_yaml := None |}
              "- a" [PStr "a"] eq_refl eq_refl) as [Habsent _].
  apply Habsent. reflexivity.
Defined.

(* ===================================================================== *)
(** * Further properties of theme resolution *)
(* ===================================================================== *)

Section MoreThemeFacts.

Lemma bind_returns {A B} (m : outcome A) (k : A -> outcome B) (b : B) :
  m ≫= k = Returns b -> exists a, m = Returns a /\ k a = Returns b.
Proof. destruct m as [a| |]; [eauto|discriminate|discriminate]. Qed.

(** The colours depend on the configuration through its ['ui'] and
    ['themes'] entries only. *)
Lemma colors_depend_on_ui_and_themes (cfg cfg' : gmap string pyval) :
  cfg !! "ui" = cfg' !! "ui" -> cfg !! "themes" = cfg' !! "themes" ->
  _get_colors_from_theme (PDict cfg) = _get_colors_from_theme (PDict cfg').
Proof.
  intros Hui Hthemes. unfold _get_colors_from_theme, mbind, outcome_bind.
  rewrite (getitem_dict_str cfg "ui"), (getitem_dict_str cfg' "ui"), Hui.
  destruct (cfg' !! "ui") as [ui|]; [|reflexivity]. cbv beta iota.
  destruct (get ui (PStr "theme") (PStr "light")) as [name| |]; [|reflexivity..].
  cbv beta iota.
  by rewrite (getitem_dict_str cfg "themes"), (getitem_dict_str cfg' "themes"), Hthemes.
Qed.

End MoreThemeFacts.

(** X10: whatever the configuration, a result of [_get_colors_from_theme] is
    a mapping with exactly the keys [bg], [fg], [panel_bg], [accent],
    [highlight] and [border]. *)
Theorem X10_colors_have_six_keys (config v : pyval) :
  _get_colors_from_theme config = Returns v ->
  exists colors : gmap string pyval,
    v = PDict colors
    /\ dom colors = list_to_set ["bg"; "fg"; "panel_bg"; "accent"; "highlight"; "border"].
Proof.
  unfold _get_colors_from_theme. intros H.
  repeat (apply bind_returns in H as (? & _ & H)).
  injection H as <-. eexists. split; [reflexivity|].
  rewrite !dom_insert_L, dom_empty_L. reflexivity.
Qed.

Lemma X10_witness :
  exists colors : gmap string pyval,
    PDict {[ "bg" := PStr "#ffffff"; "fg" := PStr "#000000";
             "panel_bg" := PStr "#f0f0f0"; "accent" := PStr "#3366cc";
             "highlight" := PStr "#ffcc00"; "border" := PStr "#cccccc" ]}
    = PDict colors
    /\ dom colors = list_to_set ["bg"; "fg"; "panel_bg"; "accent"; "highlight"; "border"].
Proof.
  apply (X10_colors_have_six_keys (PDict sample_config)). reflexivity.
Defined.

(** X11: a configuration mapping without ['ui'] ends the call in a
    [KeyError] for ['ui'], whatever else it holds; one whose ['ui'] is no
    mapping ends it in an [AttributeError] for [get]; one whose ['ui'] is a
    mapping with a textual or absent theme name and which has no ['themes']
    ends it in a [KeyError] for ['themes']. *)
Theorem X11_colors_error_order (cfg : gmap string pyval) :
  (cfg !! "ui" = None ->
     _get_colors_from_theme (PDict cfg) = Raises (KeyError (PStr "ui")))
  /\ (forall v, cfg !! "ui" = Some v -> is_dict v = false ->
        _get_colors_from_theme (PDict cfg) = Raises (AttributeError "get"))
  /\ (forall ui, cfg !! "ui" = Some (PDict ui) -> cfg !! "themes" = None ->
        _get_colors_from_theme (PDict cfg) = Raises (KeyError (PStr "themes"))).
Proof.
  unfold _get_colors_from_theme, mbind, outcome_bind.
  rewrite (getitem_dict_str cfg "ui").
  split; [|split].
  - intros ->. reflexivity.
  - intros v -> Hv. by destruct v.
  - intros ui -> Hthemes. cbv beta iota.
    rewrite get_dict_str. cbv beta iota.
    by rewrite (getitem_dict_str cfg "themes"), Hthemes.
Qed.

Lemma X11_witness :
  _get_colors_from_theme (PDict {[ "themes" := PDict sample_themes ]})
    = Raises (KeyError (PStr "ui"))
  /\ _get_colors_from_theme (PDict {[ "ui" := PStr "dark"; "themes" := PDict sample_themes ]})
    = Raises (AttributeError "get")
  /\ _get_colors_from_theme (PDict {[ "ui" := PDict sample_ui ]})
    = Raises (KeyError (PStr "themes")).
Proof.
  split; [|split].
  - apply (X11_colors_error_order {[ "themes" := PDict sample_themes ]}). reflexivity.
  - destruct (X11_colors_error_order
                {[ "ui" := PStr "dark"; "themes" := PDict sample_themes ]}) as (_ & Hui & _).
    apply (Hui (PStr "dark")); reflexivity.
  - destruct (X11_colors_error_order {[ "ui" := PDict sample_ui ]}) as (_ & _ & Hthemes).
    apply (Hthemes sample_ui); reflexivity.
Defined.

(** X12: an override that mentions neither ['ui'] nor ['themes'] does not
    change the colours: resolving them on the merged tree gives what
    resolving them on the base tree gives. *)
Theorem X12_colors_unaffected_by_other_overrides (base override : gmap string pyval) :
  override !! "ui" = None -> override !! "themes" = None ->
  _get_colors_from_theme (PDict (_deep_merge_dicts base override))
  = _get_colors_from_theme (PDict base).
Proof.
  intros Hui Hthemes.
  apply colors_depend_on_ui_and_themes; rewrite deep_merge_lookup.
  - by rewrite Hui.
  - by rewrite Hthemes.
Qed.

Lemma X12_witness :
  _get_colors_from_theme
    (PDict (_deep_merge_dicts sample_config {[ "timer" := PDict {[ "precision_ms" := PInt 0 ]} ]}))
  = _get_colors_from_theme (PDict sample_config).
Proof.
  apply X12_colors_unaffected_by_other_overrides; reflexivity.
Defined.

(** X13: a user tree that only sets [ui.theme] selects the theme: on the
    merge of [{ui: {theme: name}}] over a base with a ['ui'] mapping and a
    ['themes'] mapping, the colours are those of [themes[name]], and an
    unknown [name] ends the call in a [KeyError] for it. *)
Theorem X13_theme_selected_by_override
    (base ui themes : gmap string pyval) (name : string) :
  base !! "ui" = Some (PDict ui) ->
  base !! "themes" = Some (PDict themes) ->
  _get_colors_from_theme
    (PDict (_deep_merge_dicts base {[ "ui" := PDict {[ "theme" := PStr name ]} ]}))
  = _get_colors_from_theme
      (PDict (<[ "ui" := PDict (<[ "theme" := PStr name ]> ui) ]> base))
  /\ (themes !! name = None ->
      _get_colors_from_theme
        (PDict (_deep_merge_dicts base {[ "ui" := PDict {[ "theme" := PStr name ]} ]}))
      = Raises (KeyError (PStr name))).
Proof.
  intros Hui Hthemes.
  set (merged := _deep_merge_dicts base {[ "ui" := PDict {[ "theme" := PStr name ]} ]}).
  assert (Hmui : merged !! "ui" = Some (PDict (<[ "theme" := PStr name ]> ui))).
  { unfold merged. rewrite deep_merge_lookup, lookup_singleton_eq, Hui, merged_value_dict.
    reflexivity. }
  assert (Hmthemes : merged !! "themes" = Some (PDict themes)).
  { unfold merged. by rewrite deep_merge_lookup, lookup_singleton_ne. }
  split.
  - apply colors_depend_on_ui_and_themes.
    + by rewrite lookup_insert_eq.
    + rewrite lookup_insert_ne by done. by rewrite Hmthemes.
  - intros Hname.
    rewrite (colors_select merged _ themes name Hmui Hmthemes)
      by by rewrite lookup_insert_eq.
    by rewrite getitem_dict_str, Hname.
Qed.

Lemma X13_witness :
  _get_colors_from_theme
    (PDict (_deep_merge_dicts sample_config {[ "ui" := PDict {[ "theme" := PStr "dark" ]} ]}))
  = Raises (KeyError (PStr "dark")).
Proof.
  destruct (X13_theme_selected_by_override sample_config sample_ui sample_themes "dark"
              eq_refl eq_refl) as [_ Hunknown].
  apply Hunknown. reflexivity.
Defined.

(* ===================================================================== *)
(** * Properties of applying the theme *)
(* ===================================================================== *)

Section StylingFacts.

Variable toolkit : list tk_call -> tk_call -> option string.

Lemma ui_bind_done {A B} (m : ui A) (k : A -> ui B) made made' (b : B) :
  ui_bind m k made = (made', Done b) ->
  exists a mid, m made = (mid, Done a) /\ k a mid = (made', Done b).
Proof.
  unfold ui_bind. destruct (m made) as [mid [a| |]]; [eauto|discriminate|discriminate].
Qed.

Lemma py_done {A} (m : outcome A) made mid (a : A) :
  py m made = (mid, Done a) -> mid = made /\ m = Returns a.
Proof. unfold py. destruct m; intros [= -> ->]; auto. Qed.

Lemma tk_done (c : tk_call) made mid (u : unit) :
  tk toolkit c made = (mid, Done u) -> mid = made ++ [c].
Proof. unfold tk. by intros [= <- _]. Qed.

Lemma adds_only_py (P : tk_call -> Prop) {A} (m : outcome A) : adds_only P (py m).
Proof. intros made. exists []. split; [by rewrite app_nil_r|constructor]. Qed.

Lemma adds_only_tk (P : tk_call -> Prop) (c : tk_call) : P c -> adds_only P (tk toolkit c).
Proof. intros Hc made. exists [c]. split; [reflexivity|by repeat constructor]. Qed.

Lemma adds_only_ret (P : tk_call -> Prop) {A} (a : A) : adds_only P (ui_ret a).
Proof. intros made. exists []. split; [by rewrite app_nil_r|constructor]. Qed.

Lemma adds_only_bind (P : tk_call -> Prop) {A B} (m : ui A) (k : A -> ui B) :
  adds_only P m -> (forall a, adds_only P (k a)) -> adds_only P (ui_bind m k).
Proof.
  intros Hm Hk made. destruct (Hm made) as (added & Hadded & HP).
  unfold ui_bind. destruct (m made) as [mid [a| |]]; simpl in Hadded; subst mid.
  - destruct (Hk a (made ++ added)) as (added' & Hadded' & HP').
    exists (added ++ added'). split; [by rewrite Hadded', app_assoc|by apply Forall_app].
  - eauto.
  - eauto.
Qed.

End StylingFacts.

(** X14: when the colours cannot be resolved, [apply_theme] ends in the same
    error without having sent any request to the toolkit. *)
Theorem X14_no_request_without_colors
    (toolkit : list tk_call -> tk_call -> option string)
    (config : pyval) (e : exn) (made : list tk_call) :
  _get_colors_from_theme config = Raises e ->
  apply_theme toolkit config made = (made, Failed (PyError e)).
Proof.
  intros Hcolors. unfold apply_theme, ui_bind, py. by rewrite Hcolors.
Qed.

Lemma X14_witness :
  apply_theme accepting_toolkit (PDict sample_config_dark) []
  = ([], Failed (PyError (KeyError (PStr "dark")))).
Proof.
  apply X14_no_request_without_colors. reflexivity.
Defined.

(** X15: when [apply_theme] returns, it returns the colours that
    [_get_colors_from_theme] resolves, and after the earlier requests it has
    sent exactly these nine, in this order: the root background [bg], the
    style object, the theme selection, TFrame with the background
    [panel_bg], TLabel with the foreground [fg] and the font (family, size),
    TButton with that font and padding 6, Header.TLabel with the font
    (family, header_size), Highlight.TLabel with the foreground [highlight]
    and the bold font, Timer.TLabel with the bold font (monospace_family,
    timer_size); the colours are those of the result and the fonts those of
    [config['ui']['font']]. *)
Theorem X15_returns_after_all_styles
    (toolkit : list tk_call -> tk_call -> option string)
    (config colors : pyval) (made made' : list tk_call) :
  apply_theme toolkit config made = (made', Done colors) ->
  _get_colors_from_theme config = Returns colors
  /\ exists bg panel_bg fg highlight
            font_family font_size header_font_size monospace_font_family timer_font_size,
       getitem colors (PStr "bg") = Returns bg
       /\ getitem colors (PStr "panel_bg") = Returns panel_bg
       /\ getitem colors (PStr "fg") = Returns fg
       /\ getitem colors (PStr "highlight") = Returns highlight
       /\ config_ui_font config "family" = Returns font_family
       /\ config_ui_font config "size" = Returns font_size
       /\ config_ui_font config "header_size" = Returns header_font_size
       /\ config_ui_font config "monospace_family" = Returns monospace_font_family
       /\ config_ui_font config "timer_size" = Returns timer_font_size
       /\ made' = made ++
            [ RootConfigure [("bg", TkObj bg)];
              StyleNew;
              StyleThemeUseCurrent;
              StyleConfigure "TFrame" [("background", TkObj panel_bg)];
              StyleConfigure "TLabel"
                [("foreground", TkObj fg); ("font", TkTuple [font_family; font_size])];
              StyleConfigure "TButton"
                [("font", TkTuple [font_family; font_size]); ("padding", TkObj (PInt 6))];
              StyleConfigure "Header.TLabel"
                [("font", TkTuple [font_family; header_font_size])];
              StyleConfigure "Highlight.TLabel"
                [("foreground", TkObj highlight);
                 ("font", TkTuple [font_family; font_size; PStr "bold"])];
              StyleConfigure "Timer.TLabel"
                [("font", TkTuple [monospace_font_family; timer_font_size; PStr "bold"])] ].
Proof.
  unfold apply_theme, _configure_frame_style, _configure_label_style,
    _configure_button_style, _configure_header_style, _configure_highlight_style,
    _configure_timer_style.
  intros H.
  apply ui_bind_done in H as (c & m0 & [-> Hc]%py_done & H).
  apply ui_bind_done in H as (bg & ? & [-> Hbg]%py_done & H).
  apply ui_bind_done in H as (? & ? & ->%tk_done & H).
  apply ui_bind_done in H as (? & ? & ->%tk_done & H).
  apply ui_bind_done in H as (? & ? & ->%tk_done & H).
  apply ui_bind_done in H as (panel_bg & ? & [-> Hpanel]%py_done & H).
  apply ui_bind_done in H as (? & ? & ->%tk_done & H).
  apply ui_bind_done in H as (font_family & ? & [-> Hfamily]%py_done & H).
  apply ui_bind_done in H as (font_size & ? & [-> Hsize]%py_done & H).
  apply ui_bind_done in H as (fg & ? & [-> Hfg]%py_done & H).
  apply ui_bind_done in H as (? & ? & ->%tk_done & H).
  apply ui_bind_done in H as (? & ? & ->%tk_done & H).
  apply ui_bind_done in H as (header_font_size & ? & [-> Hheader]%py_done & H).
  apply ui_bind_done in H as (? & ? & ->%tk_done & H).
  apply ui_bind_done in H as (highlight & ? & [-> Hhighlight]%py_done & H).
  apply ui_bind_done in H as (? & ? & ->%tk_done & H).
  apply ui_bind_done in H as (monospace_font_family & ? & [-> Hmono]%py_done & H).
  apply ui_bind_done in H as (timer_font_size & ? & [-> Htimer]%py_done & H).
  apply ui_bind_done in H as (? & ? & ->%tk_done & H).
  injection H as <- <-. split; [exact Hc|].
  exists bg, panel_bg, fg, highlight, font_family, font_size, header_font_size,
    monospace_font_family, timer_font_size.
  repeat (split; [assumption|]).
  by rewrite <- !app_assoc.
Qed.

Lemma X15_witness :
  _get_colors_from_theme (PDict themed_config)
  = Returns (PDict {[ "bg" := PStr "#ffffff"; "fg" := PStr "#000000";
                      "panel_bg" := PStr "#f0f0f0"; "accent" := PStr "#3366cc";
                      "highlight" := PStr "#ffcc00"; "border" := PStr "#cccccc" ]})
  /\ exists requests,
       fst (apply_theme accepting_toolkit (PDict themed_config) []) = requests
       /\ requests !! 0 = Some (RootConfigure [("bg", TkObj (PStr "#ffffff"))])
       /\ requests !! 8
          = Some (StyleConfigure "Timer.TLabel"
                    [("font", TkTuple [PStr "Consolas"; PInt 24; PStr "bold"])]).
Proof.
  destruct (X15_returns_after_all_styles accepting_toolkit (PDict themed_config)
              (PDict {[ "bg" := PStr "#ffffff"; "fg" := PStr "#000000";
                        "panel_bg" := PStr "#f0f0f0"; "accent" := PStr "#3366cc";
                        "highlight" := PStr "#ffcc00"; "border" := PStr "#cccccc" ]})
              [] (fst (apply_theme accepting_toolkit (PDict themed_config) [])))
    as [Hcolors _]; [vm_compute; reflexivity|].
  split; [exact Hcolors|].
  eexists. split; [reflexivity|]. split; vm_compute; reflexivity.
Defined.

(** X16: however [apply_theme] ends, it keeps the requests made before it,
    every request it adds for the style TLabel sets the options [foreground]
    and [font] and no [background], and every request it adds for TButton
    sets [padding] to 6. *)
Theorem X16_label_gets_no_background
    (toolkit : list tk_call -> tk_call -> option string)
    (config : pyval) (made : list tk_call) :
  exists added,
    fst (apply_theme toolkit config made) = made ++ added
    /\ (forall options, StyleConfigure "TLabel" options ∈ added ->
          option_names (StyleConfigure "TLabel" options) = ["foreground"; "font"])
    /\ (forall options, StyleConfigure "TButton" options ∈ added ->
          ("padding", TkObj (PInt 6)) ∈ options).
Proof.
  set (P := fun c : tk_call =>
         match c with
         | StyleConfigure name options =>
             (name = "TLabel" -> fst <$> options = ["foreground"; "font"])
             /\ (name = "TButton" -> ("padding", TkObj (PInt 6)) ∈ options)
         | _ => True
         end).
  assert (Hall : adds_only P (apply_theme toolkit config)).
  { unfold apply_theme, _configure_frame_style, _configure_label_style,
      _configure_button_style, _configure_header_style, _configure_highlight_style,
      _configure_timer_style.
    repeat (apply adds_only_bind;
            [first [apply adds_only_py
                   |apply adds_only_tk; unfold P; try exact I;
                    split; intros Hname; try discriminate Hname;
                    first [reflexivity | repeat constructor]]
            |intros ?]).
    apply adds_only_ret. }
  destruct (Hall made) as (added & Hadded & HP).
  exists added. split; [exact Hadded|].
  rewrite Forall_forall in HP.
  split; intros options Hin; apply (HP _ Hin); reflexivity.
Qed.

(** X17: on a configuration whose colours resolve and whose ['ui'] mapping
    has no ['font'], with a toolkit that accepts every request,
    [apply_theme] ends in a [KeyError] for ['font'] after it has set the root
    background, created the style object, selected the theme and styled
    TFrame: the fonts are read only then. *)
Theorem X17_missing_font_after_frame
    (toolkit : list tk_call -> tk_call -> option string)
    (cfg ui colors : gmap string pyval) (bg panel_bg : pyval) (made : list tk_call) :
  (forall requests c, toolkit requests c = None) ->
  _get_colors_from_theme (PDict cfg) = Returns (PDict colors) ->
  colors !! "bg" = Some bg -> colors !! "panel_bg" = Some panel_bg ->
  cfg !! "ui" = Some (PDict ui) -> ui !! "font" = None ->
  apply_theme toolkit (PDict cfg) made
  = (made ++ [ RootConfigure [("bg", TkObj bg)]; StyleNew; StyleThemeUseCurrent;
               StyleConfigure "TFrame" [("background", TkObj panel_bg)] ],
     Failed (PyError (KeyError (PStr "font")))).
Proof.
  intros Htk Hcolors Hbg Hpanel Hui Hfont.
  unfold apply_theme, _configure_frame_style, ui_bind, py, tk.
  rewrite Hcolors, !getitem_dict_str, Hbg, Hpanel, !Htk.
  unfold config_ui_font, mbind, outcome_bind.
  rewrite !getitem_dict_str, Hui. cbv beta iota.
  rewrite getitem_dict_str, Hfont.
  by rewrite <- !app_assoc.
Qed.

Lemma X17_witness :
  apply_theme accepting_toolkit
    (PDict {[ "ui" := PDict {[ "theme" := PStr "light" ]}; "themes" := PDict sample_themes ]})
    []
  = ([ RootConfigure [("bg", TkObj (PStr "#ffffff"))]; StyleNew; StyleThemeUseCurrent;
       StyleConfigure "TFrame" [("background", TkObj (PStr "#f0f0f0"))] ],
     Failed (PyError (KeyError (PStr "font")))).
Proof.
  apply (X17_missing_font_after_frame accepting_toolkit
           {[ "ui" := PDict {[ "theme" := PStr "light" ]}; "themes" := PDict sample_themes ]}
           {[ "theme" := PStr "light" ]}
           {[ "bg" := PStr "#ffffff"; "fg" := PStr "#000000";
              "panel_bg" := PStr "#f0f0f0"; "accent" := PStr "#3366cc";
              "highlight" := PStr "#ffcc00"; "border" := PStr "#cccccc" ]}
           (PStr "#ffffff") (PStr "#f0f0f0") []); reflexivity.
Defined.

(* ===================================================================== *)
(** * A further property of container construction *)
(* ===================================================================== *)

(** X18: a container that [__init__] returns has the class and the title it
    was given and no children; under a widget that is no container it has no
    parent container, and a parent container it records is the container it
    was given as [parent]. *)
Theorem X18_new_container_fields
    (klass : container_class) (parent : tk_parent) (title : string)
    (σ σ' : store) (self : nat) :
  __init__ klass parent title σ = Returns (self, σ') ->
  exists c,
    σ' !! self = Some c
    /\ class_of c = klass
    /\ Containers.title c = title
    /\ children_containers c = []
    /\ (parent = Widget -> parent_container c = None)
    /\ (forall p, parent_container c = Some p -> parent = Ref p /\ is_Some (σ !! p)).
Proof.
  unfold __init__, _compute_relative_depth.
  rewrite (list_lookup_middle σ [] _ (length σ) eq_refl).
  destruct (walk_up _ _ _ _ _) as [d|]; cbn [mbind outcome_bind]; [|discriminate].
  rewrite alter_snoc. unfold _resolve_style_tokens.
  rewrite (list_lookup_middle σ [] _ (length σ) eq_refl).
  cbn [set_depth depth mbind outcome_bind class_of].
  rewrite alter_snoc. unfold _build_structure.
  rewrite (list_lookup_middle σ [] _ (length σ) eq_refl).
  cbn [set_style_tokens parent_container].
  set (recorded := match parent with Widget => None | Ref q => _ end).
  assert (Hrec : forall p, recorded = Some p -> parent = Ref p /\ is_Some (σ !! p)).
  { intros p Hp. apply recorded_parent_lt in Hp as [-> Hlt].
    split; [reflexivity|by apply lookup_lt_is_Some_2]. }
  assert (Hwidget : parent = Widget -> recorded = None).
  { by intros ->. }
  destruct recorded as [p|] eqn:Hp; cbn [mbind outcome_bind mret outcome_ret];
    intros [= <- <-]; eexists.
  - split.
    + destruct (Hrec p eq_refl) as [_ Hlt%lookup_lt_is_Some].
      rewrite list_lookup_alter_ne by lia.
      by apply list_lookup_middle.
    + cbn. do 3 (split; [reflexivity|]). split; [exact Hwidget|exact Hrec].
  - split; [by apply list_lookup_middle|].
    cbn. do 3 (split; [reflexivity|]). split; [exact Hwidget|exact Hrec].
Qed.

Lemma X18_witness :
  exists c,
    [ {| class_of := YWARContainer; parent_container := None; title := "root";
         children_containers := []; depth := Some 0;
         style_tokens := Some (PStr "#000000") |} ] !! 0 = Some c
    /\ Containers.title c = "root"
    /\ parent_container c = None.
Proof.
  destruct (X18_new_container_fields YWARContainer Widget "root" []
              [ {| class_of := YWARContainer; parent_container := None; title := "root";
                   children_containers := []; depth := Some 0;
                   style_tokens := Some (PStr "#000000") |} ] 0 eq_refl)
    as (c & Hc & _ & Htitle & _ & Hroot & _).
  exists c. split; [exact Hc|]. split; [exact Htitle|]. by apply Hroot.
Defined.
